(** * Contact-form pipeline of the portfolio backend

    A shallow embedding of the [POST /api/contact] handler of the Express
    server (the explicit-SMTP revision, [app.post('/api/contact', ...)]),
    with the ECMAScript string built-ins it calls, the mail transport as an
    oracle whose calls are recorded, and the clock as an input.  The
    [service: 'gmail'] revision in [portfolio-backend/server.js] has the
    same configuration check, validation and [sanitizedData], line for
    line.  Logging is left out.

    JavaScript strings are sequences of UTF-16 code units; a code unit is a
    number below 65536, kept here as an [N]. *)

From Stdlib Require Import NArith String Ascii List Bool Lia.
From stdpp Require Import base list strings gmap.
Import ListNotations.

Local Open Scope list_scope.

(** ** JavaScript strings *)

Abbreviation code_unit := N.
Abbreviation jsstring := (list N).

(** A source literal whose characters are all ASCII, as its code units. *)
Definition lit (s : string) : jsstring :=
  List.map N_of_ascii (list_ascii_of_string s).

(** ECMAScript [WhiteSpace] and [LineTerminator] code points: what
    [String.prototype.trim] strips and what [\s] matches. *)
Definition isWhiteSpace (c : code_unit) : bool :=
  ((c =? 9) || (c =? 10) || (c =? 11) || (c =? 12) || (c =? 13) ||
   (c =? 32) || (c =? 160) || (c =? 5760) ||
   ((8192 <=? c) && (c <=? 8202)) ||
   (c =? 8232) || (c =? 8233) || (c =? 8239) || (c =? 8287) ||
   (c =? 12288) || (c =? 65279))%N.

Fixpoint dropWhile {A} (p : A -> bool) (l : list A) : list A :=
  match l with
  | [] => []
  | x :: l' => if p x then dropWhile p l' else l
  end.

Definition trimStart (s : jsstring) : jsstring := dropWhile isWhiteSpace s.

Definition trimEnd (s : jsstring) : jsstring :=
  rev (dropWhile isWhiteSpace (rev s)).

(** [s.trim()] *)
Definition trim (s : jsstring) : jsstring := trimEnd (trimStart s).

(** No white space at the front, or at the back, of a string. *)
Definition startsClean (s : jsstring) : Prop :=
  match s with
  | c :: _ => isWhiteSpace c = false
  | [] => True
  end.

Definition endsClean (s : jsstring) : Prop := startsClean (rev s).

(** [s.substring(start, end)] for non-negative integer arguments: both are
    clamped to the length and swapped when [start > end]. *)
Definition substring (s : jsstring) (start end_ : nat) : jsstring :=
  let len := length s in
  let finalStart := Nat.min start len in
  let finalEnd := Nat.min end_ len in
  let from := Nat.min finalStart finalEnd in
  let to := Nat.max finalStart finalEnd in
  firstn (to - from) (skipn from s).

(** [s.split(' ')[0]]: the part of [s] before its first U+0020 (all of [s]
    when it has none; the empty string when [s] is empty). *)
Fixpoint split_space_first (s : jsstring) : jsstring :=
  match s with
  | [] => []
  | c :: s' => if (c =? 32)%N then [] else c :: split_space_first s'
  end.

(** ** Regular expressions

    The patterns of the handler use character classes, concatenation and
    [+]; the matcher is by derivatives, on code units (no [u] flag). *)

Inductive regex : Type :=
| Void
| Eps
| Class (p : code_unit -> bool)
| Cat (r1 r2 : regex)
| Alt (r1 r2 : regex)
| Star (r : regex).

Definition Plus (r : regex) : regex := Cat r (Star r).

Inductive Matches : regex -> jsstring -> Prop :=
| MEps : Matches Eps []
| MClass p c : p c = true -> Matches (Class p) [c]
| MCat r1 r2 s1 s2 : Matches r1 s1 -> Matches r2 s2 -> Matches (Cat r1 r2) (s1 ++ s2)
| MAltL r1 r2 s : Matches r1 s -> Matches (Alt r1 r2) s
| MAltR r1 r2 s : Matches r2 s -> Matches (Alt r1 r2) s
| MStarNil r : Matches (Star r) []
| MStarCons r s1 s2 : Matches r s1 -> Matches (Star r) s2 -> Matches (Star r) (s1 ++ s2).

Fixpoint nullable (r : regex) : bool :=
  match r with
  | Void => false
  | Eps => true
  | Class _ => false
  | Cat r1 r2 => nullable r1 && nullable r2
  | Alt r1 r2 => nullable r1 || nullable r2
  | Star _ => true
  end.

Definition cat (r1 r2 : regex) : regex :=
  match r1 with
  | Void => Void
  | Eps => r2
  | _ => Cat r1 r2
  end.

Definition alt (r1 r2 : regex) : regex :=
  match r1, r2 with
  | Void, _ => r2
  | _, Void => r1
  | _, _ => Alt r1 r2
  end.

Fixpoint deriv (c : code_unit) (r : regex) : regex :=
  match r with
  | Void => Void
  | Eps => Void
  | Class p => if p c then Eps else Void
  | Cat r1 r2 =>
      if nullable r1 then alt (cat (deriv c r1) r2) (deriv c r2)
      else cat (deriv c r1) r2
  | Alt r1 r2 => alt (deriv c r1) (deriv c r2)
  | Star r1 => cat (deriv c r1) (Star r1)
  end.

Fixpoint matches (r : regex) (s : jsstring) : bool :=
  match s with
  | [] => nullable r
  | c :: s' => matches (deriv c r) s'
  end.

(** [[^\s@]]: any code unit that is neither white space nor [@]. *)
Definition notSpaceAt (c : code_unit) : bool :=
  negb (isWhiteSpace c || (c =? 64)%N).

Definition isAt (c : code_unit) : bool := (c =? 64)%N.
Definition isDot (c : code_unit) : bool := (c =? 46)%N.

(** [/^[^\s@]+@[^\s@]+\.[^\s@]+$/]: the anchors make it a match of the
    whole string. *)
Definition emailRegex : regex :=
  Cat (Plus (Class notSpaceAt))
    (Cat (Class isAt)
       (Cat (Plus (Class notSpaceAt))
          (Cat (Class isDot) (Plus (Class notSpaceAt))))).

(** [emailRegex.test(s)] *)
Definition emailRegex_test (s : jsstring) : bool := matches emailRegex s.

(** The shape the pattern describes: [local@domain.tld] with three
    non-empty runs of code units that are neither white space nor [@]. *)
Definition classRun (s : jsstring) : Prop :=
  s <> [] /\ Forall (fun c => notSpaceAt c = true) s.

Definition emailShape (s : jsstring) : Prop :=
  exists a b c, s = a ++ 64%N :: b ++ 46%N :: c /\
                classRun a /\ classRun b /\ classRun c.

(** ** [process.env] and the request body *)

Abbreviation Env := (gmap string (list N)).

(** JavaScript truthiness of a value that is [undefined] or a string. *)
Definition truthy (v : option jsstring) : bool :=
  match v with
  | Some (_ :: _) => true
  | _ => false
  end.

(** String conversion of such a value, as template literals and
    [RegExp.prototype.test] apply it. *)
Definition ToString (v : option jsstring) : jsstring :=
  match v with
  | Some s => s
  | None => lit "undefined"
  end.

Definition requiredEnvVars : list string :=
  ["EMAIL_USER"; "EMAIL_PASS"; "SITE_NAME"; "EMAIL_FROM"]%string.

Definition missingVars (env : Env) : list string :=
  List.filter (fun varName => negb (truthy (env !! varName))) requiredEnvVars.

(** [req.body]: each of the three keys is absent or holds a string. *)
Record ReqBody := {
  req_fullname : option jsstring;
  req_email : option jsstring;
  req_message : option jsstring
}.

(** The shape of [sanitizedData]. *)
Record Submission := {
  fullname : jsstring;
  email : jsstring;
  message : jsstring
}.

(** ** Responses, the mail transport and the clock *)

(** [{ success: true, message }] or [{ success: false, error }]. *)
Inductive ResponseBody :=
| Success (message : string)
| Failure (error : string).

Record Response := { status : nat; json : ResponseBody }.

Record MailOptions := {
  from : jsstring;
  to : option jsstring;
  subject : jsstring;
  html : jsstring;
  text : jsstring
}.

(** A thrown or rejected value, as far as the handler looks at it: its
    [code] property. *)
Record JsError := { code : option string }.

Definition TypeError : JsError := {| code := None |}.

Inductive Settled (A : Type) :=
| Fulfilled (a : A)
| Rejected (e : JsError).
Arguments Fulfilled {A} a.
Arguments Rejected {A} e.

Record SentMessageInfo := { messageId : jsstring }.

(** The transporter as an oracle: how [verify()] settles, and how
    [sendMail(mailOptions)] settles. *)
Record Transporter := {
  verify : Settled unit;
  sendMail : MailOptions -> Settled SentMessageInfo
}.

Inductive TransportCall :=
| CallVerify
| CallSendMail (mailOptions : MailOptions).

(** What the two [new Date()] formatting calls of the templates return. *)
Record DateNow := {
  toLocaleDateString : jsstring;
  toLocaleString : jsstring
}.

(** ** Runs: the transport calls made, and a normal or abrupt completion *)

Inductive Completion (A : Type) :=
| Normal (a : A)
| Throw (e : JsError).
Arguments Normal {A} a.
Arguments Throw {A} e.

Definition Run (A : Type) : Type := list TransportCall * Completion A.

Definition ret {A} (a : A) : Run A := ([], Normal a).

Definition throw {A} (e : JsError) : Run A := ([], Throw e).

Definition bind {A B} (m : Run A) (k : A -> Run B) : Run B :=
  match m with
  | (calls, Normal a) => let (calls', r) := k a in (calls ++ calls', r)
  | (calls, Throw e) => (calls, Throw e)
  end.

Definition try_catch {A} (m : Run A) (handler : JsError -> Run A) : Run A :=
  match m with
  | (calls, Throw e) => let (calls', r) := handler e in (calls ++ calls', r)
  | (calls, Normal a) => (calls, Normal a)
  end.

Definition await {A} (call : TransportCall) (p : Settled A) : Run A :=
  ([call], match p with Fulfilled a => Normal a | Rejected e => Throw e end).

Notation "'let*' x ':=' m 'in' k" := (bind m (fun x => k))
  (at level 10, x name, m at level 100, k at level 200).

(** The receiver of a method call: [undefined.trim()] throws. *)
Definition receiver (v : option jsstring) : Run jsstring :=
  match v with
  | Some s => ret s
  | None => throw TypeError
  end.

(** ** The e-mail templates

    The template literals of [mailOptions], cut at their [${...}] holes.
    Their double quotes are written as backquotes here (a template literal
    holds no backquote) and put back by [tpl]. *)

Definition tpl (s : string) : jsstring :=
  List.map (fun a => if (N_of_ascii a =? 96)%N then 34%N else N_of_ascii a)
    (list_ascii_of_string s).

Definition html_0 : list N := tpl "
        <!DOCTYPE html>
        <html lang=`en`>
        <head>
          <meta charset=`UTF-8`>
          <meta name=`viewport` content=`width=device-width, initial-scale=1.0`>
          <title>New Contact Form Submission</title>
        </head>
        <body style=`margin: 0; padding: 0; background-color: #f7fafc; font-family: -apple-system, BlinkMacSystemFont, 'Segoe UI', Roboto, 'Helvetica Neue', Arial, sans-serif; line-height: 1.6;`>
          <div style=`max-width: 600px; margin: 32px auto; background-color: #ffffff; border-radius: 16px; box-shadow: 0 10px 40px rgba(0, 0, 0, 0.06), 0 2px 8px rgba(0, 0, 0, 0.04); overflow: hidden; border: 1px solid #e2e8f0;`>

            <!-- Header -->
            <div style=`background: linear-gradient(135deg, #ffdb70 0%, #ffd93d 100%); padding: 40px; text-align: center; border-left: 6px solid #f59e0b; position: relative;`>
              <h1 style=`margin: 0; color: #1a202c; font-size: 28px; font-weight: 700; letter-spacing: -0.8px; line-height: 1.2;`>
                New Contact
              </h1>
              <p style=`margin: 12px 0 0 0; color: #2d3748; font-size: 15px; font-weight: 500; opacity: 0.8;`>
                ".

Definition html_1 : list N := tpl "
              </p>
            </div>

            <!-- Content -->
            <div style=`padding: 40px;`>

              <!-- Contact Info Card -->
              <div style=`background: linear-gradient(135deg, #fffbf0 0%, #fef7e0 100%); border: 1px solid #fed7aa; border-radius: 16px; padding: 32px; margin-bottom: 32px; border-left: 5px solid #ffdb70; box-shadow: 0 2px 8px rgba(255, 219, 112, 0.1);`>
                <table cellpadding=`0` cellspacing=`0` border=`0` style=`width: 100%;`>
                  <tr>
                    <td style=`text-align: left; vertical-align: top;`>
                      <h2 style=`margin: 0 0 12px 0; color: #1a202c; font-size: 24px; font-weight: 700; font-family: -apple-system, BlinkMacSystemFont, 'Segoe UI', Arial, sans-serif; line-height: 1.2; letter-spacing: -0.5px;`>
                        ".

Definition html_2 : list N := tpl "
                      </h2>
                      <div style=`background-color: #ffffff; border: 1px solid #e2e8f0; border-radius: 8px; padding: 12px 16px; display: inline-block; box-shadow: 0 1px 3px rgba(0, 0, 0, 0.05);`>
                        <table cellpadding=`0` cellspacing=`0` border=`0`>
                          <tr>
                            <td style=`vertical-align: middle; padding-right: 8px;`>
                              <div style=`width: 16px; height: 16px; background-color: #ffdb70; border-radius: 3px; display: inline-block; text-align: center; line-height: 16px;`>
                                <span style=`font-size: 10px; color: #1a202c; font-weight: 600;`>@</span>
                              </div>
                            </td>
                            <td style=`vertical-align: middle;`>
                              <a href=`mailto:".

Definition html_3 : list N := tpl "` style=`color: #3182ce; text-decoration: none; font-size: 15px; font-weight: 500; font-family: -apple-system, BlinkMacSystemFont, 'Segoe UI', Arial, sans-serif;`>
                                ".

Definition html_4 : list N := tpl "
                              </a>
                            </td>
                          </tr>
                        </table>
                      </div>
                    </td>
                  </tr>
                </table>
              </div>

              <!-- Message Content -->
              <div style=`margin-bottom: 36px;`>
                <div style=`margin-bottom: 16px;`>
                  <h3 style=`margin: 0; color: #1a202c; font-size: 18px; font-weight: 600; font-family: -apple-system, BlinkMacSystemFont, 'Segoe UI', Arial, sans-serif; letter-spacing: -0.3px;`>
                    Message
                  </h3>
                </div>
                <div style=`background-color: #f8fafc; border: 1px solid #e2e8f0; border-radius: 12px; padding: 28px; position: relative;`>
                  <div style=`position: absolute; top: 0; left: 0; width: 4px; height: 100%; background: linear-gradient(180deg, #ffdb70 0%, #ffd93d 100%); border-radius: 2px 0 0 2px;`></div>
                  <p style=`margin: 0; color: #2d3748; font-size: 16px; line-height: 1.7; font-family: -apple-system, BlinkMacSystemFont, 'Segoe UI', 'Roboto', 'Helvetica Neue', Arial, sans-serif; letter-spacing: 0.01em; word-wrap: break-word; white-space: pre-wrap; font-weight: 400;`>
                    ".

Definition html_5 : list N := tpl "
                  </p>
                </div>
              </div>

              <!-- Quick Actions -->
              <div style=`text-align: center; margin-bottom: 32px;`>
                <a href=`mailto:".

Definition html_6 : list N := tpl "?subject=Re: Your message to ".

Definition html_7 : list N := tpl "`
                   style=`display: inline-block; background: linear-gradient(135deg, #ffdb70 0%, #ffd93d 100%); color: #1a202c; text-decoration: none; padding: 14px 28px; border-radius: 8px; font-weight: 600; font-size: 15px; font-family: -apple-system, BlinkMacSystemFont, 'Segoe UI', Arial, sans-serif; box-shadow: 0 4px 12px rgba(255, 219, 112, 0.3); border: 1px solid #fed7aa;`>
                  Reply to ".

Definition html_8 : list N := tpl "
                </a>
              </div>

            </div>

            <!-- Footer -->
            <div style=`background: linear-gradient(135deg, #f8fafc 0%, #f1f5f9 100%); padding: 24px 40px; border-top: 1px solid #e2e8f0;`>
              <div style=`text-align: center;`>
                <div style=`display: inline-block; background-color: #ffffff; border: 1px solid #e2e8f0; border-radius: 6px; padding: 8px 12px; margin-bottom: 8px;`>
                  <p style=`margin: 0; color: #4a5568; font-size: 13px; font-weight: 500; font-family: -apple-system, BlinkMacSystemFont, 'Segoe UI', Arial, sans-serif;`>
                    ".

Definition html_9 : list N := tpl "
                  </p>
                </div>
                <p style=`margin: 0; color: #718096; font-size: 12px; font-family: -apple-system, BlinkMacSystemFont, 'Segoe UI', Arial, sans-serif;`>
                  Sent via ".

Definition html_10 : list N := tpl " Contact Form
                </p>
              </div>
            </div>

          </div>
        </body>
        </html>
      ".

Definition text_0 : list N := tpl "
New Contact Form Submission

Name: ".

Definition text_1 : list N := tpl "
Email: ".

Definition text_2 : list N := tpl "

Message:
".

Definition text_3 : list N := tpl "

Submitted on: ".

Definition text_4 : list N := tpl "
      ".

Definition json_response (st : nat) (b : ResponseBody) : Response :=
  {| status := st; json := b |}.

(** [toLowerCase] on Basic Latin: [A]-[Z] go to [a]-[z], every other
    code unit is kept.  On a string of code units below 128 this is what
    [String.prototype.toLowerCase] returns. *)
Definition toLowerCase_unit (c : code_unit) : code_unit :=
  if ((65 <=? c) && (c <=? 90))%N then (c + 32)%N else c.

Definition toLowerCase_ascii (s : jsstring) : jsstring :=
  List.map toLowerCase_unit s.

Definition isAscii (s : jsstring) : Prop := Forall (fun c => (c < 128)%N) s.

(** ** The handler *)

Section Handler.

(** [String.prototype.toLowerCase], the Unicode default case conversion
    of the runtime. *)
Variable toLowerCase : jsstring -> jsstring.

(** [sanitizedData], as a function of the three raw strings. *)
Definition sanitizedData (raw : Submission) : Submission :=
  {| fullname := substring (trim (fullname raw)) 0 100;
     email := substring (toLowerCase (trim (email raw))) 0 100;
     message := substring (trim (message raw)) 0 1000 |}.

(** [mailOptions] *)
Definition mailOptions (env : Env) (sanitizedData : Submission) (now : DateNow)
  : MailOptions :=
  let SITE_NAME := ToString (env !! "SITE_NAME"%string) in
  {| from := tpl "`" ++ SITE_NAME ++ tpl " Contact Form` <"
             ++ ToString (env !! "EMAIL_FROM"%string) ++ lit ">";
     to := env !! "EMAIL_USER"%string;
     subject := lit "New Contact - " ++ fullname sanitizedData;
     html := html_0 ++ SITE_NAME
          ++ html_1 ++ fullname sanitizedData
          ++ html_2 ++ email sanitizedData
          ++ html_3 ++ email sanitizedData
          ++ html_4 ++ message sanitizedData
          ++ html_5 ++ email sanitizedData
          ++ html_6 ++ SITE_NAME
          ++ html_7 ++ split_space_first (fullname sanitizedData)
          ++ html_8 ++ toLocaleDateString now
          ++ html_9 ++ SITE_NAME
          ++ html_10;
     text := text_0 ++ fullname sanitizedData
          ++ text_1 ++ email sanitizedData
          ++ text_2 ++ message sanitizedData
          ++ text_3 ++ toLocaleString now
          ++ text_4 |}.

(** The inner [try { await transporter.verify() } catch (verifyError)
    { return res.status(500)... }]: [Some] response when the handler
    returns from the [catch]. *)
Definition verify_transporter (transporter : Transporter) : Run (option Response) :=
  try_catch
    (let* _ := await CallVerify (verify transporter) in ret None)
    (fun verifyError =>
       ret (Some (json_response 500
         (Failure "Email service is currently unavailable. Please try again later.")))).

(** The outer [catch (error)]. *)
Definition on_error (error : JsError) : Run Response :=
  if decide (code error = Some "EAUTH"%string) then
    ret (json_response 500
      (Failure "Email authentication failed. Please contact the administrator."))
  else if decide (code error = Some "ECONNECTION"%string) then
    ret (json_response 500
      (Failure "Unable to connect to email service. Please try again later."))
  else
    ret (json_response 500
      (Failure "Failed to send message. Please try again later.")).

(** [app.post('/api/contact', async (req, res) => ...)] *)
Definition contact_handler (env : Env) (body : ReqBody) (now : DateNow)
    (transporter : Transporter) : Run Response :=
  try_catch
    (if (0 <? length (missingVars env))%nat then
       ret (json_response 500
         (Failure "Server configuration error. Please contact the administrator."))
     else if negb (truthy (req_fullname body)) || negb (truthy (req_email body))
             || negb (truthy (req_message body)) then
       ret (json_response 400 (Failure "All fields are required"))
     else if negb (emailRegex_test (ToString (req_email body))) then
       ret (json_response 400 (Failure "Please provide a valid email address"))
     else
       let* fullname := receiver (req_fullname body) in
       let* email := receiver (req_email body) in
       let* message := receiver (req_message body) in
       let sanitizedData :=
         sanitizedData {| fullname := fullname; email := email; message := message |} in
       let* unavailable := verify_transporter transporter in
       match unavailable with
       | Some response => ret response
       | None =>
           let mailOptions := mailOptions env sanitizedData now in
           let* info := await (CallSendMail mailOptions) (sendMail transporter mailOptions) in
           ret (json_response 200 (Success "Your message has been sent successfully!"))
       end)
    on_error.

End Handler.

(** ** Vocabulary of the statements *)

(** A value that is missing or the empty string. *)
Definition absent (v : option jsstring) : Prop := v = None \/ v = Some [].

(** Every required key of [process.env] is set to a non-empty string. *)
Definition configured (env : Env) : Prop :=
  Forall (fun varName => truthy (env !! varName) = true) requiredEnvVars.

(** The request body that carries three strings. *)
Definition body_of (raw : Submission) : ReqBody :=
  {| req_fullname := Some (fullname raw);
     req_email := Some (email raw);
     req_message := Some (message raw) |}.

(** The two validation steps let the submission through. *)
Definition accepted (raw : Submission) : Prop :=
  fullname raw <> [] /\ email raw <> [] /\ message raw <> [] /\
  emailRegex_test (email raw) = true.

(** A response of the validation steps: HTTP 400. *)
Definition isValidationError (r : Run Response) : Prop :=
  exists error, snd r = Normal (json_response 400 (Failure error)).

(** ** Sample data *)

Definition sample_env : Env :=
  <["EMAIL_USER"%string := lit "owner@example.com"]>
    (<["EMAIL_PASS"%string := lit "app-password"]>
       (<["SITE_NAME"%string := lit "Portfolio"]>
          (<["EMAIL_FROM"%string := lit "noreply@example.com"]> ∅))).

Definition jane : Submission :=
  {| fullname := lit "Jane Doe"; email := lit "jane@x.com"; message := lit "Hi there" |}.

Definition sample_now : DateNow :=
  {| toLocaleDateString := lit "Tuesday, November 3, 2026 at 10:00 AM";
     toLocaleString := lit "11/3/2026, 10:00:00 AM" |}.

Definition sample_later : DateNow :=
  {| toLocaleDateString := lit "Tuesday, November 3, 2026 at 10:00 AM";
     toLocaleString := lit "11/3/2026, 10:00:01 AM" |}.

Definition transport_ok : Transporter :=
  {| verify := Fulfilled tt;
     sendMail := fun _ => Fulfilled {| messageId := lit "<1@example.com>" |} |}.

Definition transport_down : Transporter :=
  {| verify := Rejected {| code := Some "ECONNECTION"%string |};
     sendMail := fun _ => Fulfilled {| messageId := lit "<1@example.com>" |} |}.

Definition long_email : jsstring := List.repeat 97%N 100 ++ lit "@b.c".

Definition padded_email : jsstring := lit " a@b.c ".

Definition blank_name : Submission :=
  {| fullname := lit " "; email := lit "a@b.c"; message := lit "Hello" |}.

(** 99 letters, a space and one more letter: the cap cuts after the space. *)
Definition cut_at_space : Submission :=
  {| fullname := List.repeat 97%N 99 ++ lit " b";
     email := lit "a@b.c";
     message := lit "Hello" |}.

(** A 2000-unit message that starts with a space. *)
Definition indented_message : Submission :=
  {| fullname := lit "Jane Doe";
     email := lit "jane@x.com";
     message := 32%N :: List.repeat 97%N 1999 |}.

(** A 150-unit name and a 2000-unit message without outer white space. *)
Definition oversized : Submission :=
  {| fullname := List.repeat 98%N 150;
     email := lit "jane@x.com";
     message := List.repeat 97%N 2000 |}.

(** ** The rest of the server *)

(** The strings of a request body, each read with [ToString]. *)
Definition raw_of (body : ReqBody) : Submission :=
  {| fullname := ToString (req_fullname body);
     email := ToString (req_email body);
     message := ToString (req_message body) |}.

(** The three fields are there and non-empty. *)
Definition present (body : ReqBody) : Prop :=
  truthy (req_fullname body) = true /\ truthy (req_email body) = true /\
  truthy (req_message body) = true.

(** Every body the handler of [/api/contact] ever sends. *)
Definition contact_answers : list Response :=
  [ json_response 500
      (Failure "Server configuration error. Please contact the administrator.");
    json_response 400 (Failure "All fields are required");
    json_response 400 (Failure "Please provide a valid email address");
    json_response 500
      (Failure "Email service is currently unavailable. Please try again later.");
    json_response 200 (Success "Your message has been sent successfully!");
    json_response 500
      (Failure "Email authentication failed. Please contact the administrator.");
    json_response 500
      (Failure "Unable to connect to email service. Please try again later.");
    json_response 500 (Failure "Failed to send message. Please try again later.") ].

(** *** The [service: 'gmail'] revision of the handler

    [portfolio-backend/server.js] builds its transporter with
    [nodemailer.createTransporter({ service: 'gmail', auth: ... })].  The
    member is looked up on the [nodemailer] module: [None] when the module
    has no such member, and the call then throws a [TypeError]. *)

Record ServiceOptions := {
  service : jsstring;
  auth_user : option jsstring;
  auth_pass : option jsstring
}.

Definition call_member {A B} (member : option (A -> B)) (a : A) : Run B :=
  match member with
  | Some f => ret (f a)
  | None => throw TypeError
  end.

Section ServiceRevision.

Variable toLowerCase : jsstring -> jsstring.
Variable createTransporter : option (ServiceOptions -> Transporter).

Definition contact_handler_service (env : Env) (body : ReqBody) (now : DateNow)
  : Run Response :=
  try_catch
    (if (0 <? length (missingVars env))%nat then
       ret (json_response 500
         (Failure "Server configuration error. Please contact the administrator."))
     else if negb (truthy (req_fullname body)) || negb (truthy (req_email body))
             || negb (truthy (req_message body)) then
       ret (json_response 400 (Failure "All fields are required"))
     else if negb (emailRegex_test (ToString (req_email body))) then
       ret (json_response 400 (Failure "Please provide a valid email address"))
     else
       let* fullname := receiver (req_fullname body) in
       let* email := receiver (req_email body) in
       let* message := receiver (req_message body) in
       let sanitizedData :=
         sanitizedData toLowerCase
           {| fullname := fullname; email := email; message := message |} in
       let* transporter :=
         call_member createTransporter
           {| service := lit "gmail";
              auth_user := env !! "EMAIL_USER"%string;
              auth_pass := env !! "EMAIL_PASS"%string |} in
       let* unavailable := verify_transporter transporter in
       match unavailable with
       | Some response => ret response
       | None =>
           let mailOptions := mailOptions env sanitizedData now in
           let* info := await (CallSendMail mailOptions) (sendMail transporter mailOptions) in
           ret (json_response 200 (Success "Your message has been sent successfully!"))
       end)
    on_error.

End ServiceRevision.

(** *** The CORS origin check *)

Definition fixedOrigins : list jsstring :=
  [ lit "https://portfolio-frontend-tejana.vercel.app";
    lit "https://tejana-portfolio.vercel.app";
    lit "http://localhost:3000";
    lit "http://localhost:5500";
    lit "http://127.0.0.1:5500";
    lit "http://127.0.0.1:3000" ].

(** [allowedOrigins], after the [push] of [process.env.FRONTEND_URL] that
    is made when that variable is truthy. *)
Definition allowedOrigins (env : Env) : list jsstring :=
  if truthy (env !! "FRONTEND_URL"%string)
  then fixedOrigins ++ [ToString (env !! "FRONTEND_URL"%string)]
  else fixedOrigins.

(** [array.indexOf(x)] on an array of strings: the first index holding a
    string equal to [x], or [-1]. *)
Fixpoint indexOf_from (i : Z) (l : list jsstring) (x : jsstring) : Z :=
  match l with
  | [] => (-1)%Z
  | y :: l' => if decide (y = x) then i else indexOf_from (i + 1)%Z l' x
  end.

Definition indexOf (l : list jsstring) (x : jsstring) : Z := indexOf_from 0%Z l x.

(** What the [origin] function hands to its callback: [callback(null, true)]
    or [callback(new Error(message))]. *)
Inductive CorsDecision :=
| CorsAllowed
| CorsError (message : string).

(** The [origin] option of the [cors] middleware; [origin] is the request's
    [Origin] header, [None] when the request has none. *)
Definition cors_origin (env : Env) (origin : option jsstring) : CorsDecision :=
  if negb (truthy origin) then CorsAllowed
  else if negb (indexOf (allowedOrigins env) (ToString origin) =? -1)%Z then CorsAllowed
  else CorsError "Not allowed by CORS".

(** *** The health check of the contact API *)

(** [a && b] on values that are [undefined] or strings. *)
Definition js_and (a b : option jsstring) : option jsstring :=
  if truthy a then b else a.

(** The body of [GET /api/health]; the up-time is a number of the runtime,
    kept as it is given. *)
Record HealthReport (U : Type) := {
  health_status : string;
  health_message : string;
  health_timestamp : jsstring;
  uptime : U;
  emailConfigured : bool
}.
Arguments health_status {U} _.
Arguments health_message {U} _.
Arguments health_timestamp {U} _.
Arguments uptime {U} _.
Arguments emailConfigured {U} _.

Definition api_health {U} (env : Env) (toISOString : jsstring) (process_uptime : U)
  : nat * HealthReport U :=
  (200%nat,
   {| health_status := "OK";
      health_message := "Contact form API is ready";
      health_timestamp := toISOString;
      uptime := process_uptime;
      emailConfigured :=
        truthy (js_and (env !! "EMAIL_USER"%string) (env !! "EMAIL_PASS"%string)) |}).

(** *** The test endpoint

    [module.exports = async (req, res) => ...]: the headers set, the
    status and the JSON body.  The body of the request is echoed and is
    kept abstract. *)

Record EnvVars := {
  EMAIL_USER : bool;
  EMAIL_PASS : bool;
  SITE_NAME : bool;
  EMAIL_FROM : bool
}.

Inductive TestJson (B : Type) :=
| TestPreflight
| TestReport (message : string) (method : string) (envVars : EnvVars)
             (body : option B) (timestamp : jsstring).
Arguments TestPreflight {B}.
Arguments TestReport {B} message method envVars body timestamp.

Record TestResponse (B : Type) := {
  test_headers : list (string * string);
  test_status : nat;
  test_json : TestJson B
}.
Arguments test_headers {B} _.
Arguments test_status {B} _.
Arguments test_json {B} _.

Definition test_envVars (env : Env) : EnvVars :=
  {| EMAIL_USER := truthy (env !! "EMAIL_USER"%string);
     EMAIL_PASS := truthy (env !! "EMAIL_PASS"%string);
     SITE_NAME := truthy (env !! "SITE_NAME"%string);
     EMAIL_FROM := truthy (env !! "EMAIL_FROM"%string) |}.

Definition test_cors_headers : list (string * string) :=
  [ ("Access-Control-Allow-Origin", "*");
    ("Access-Control-Allow-Methods", "GET, POST, OPTIONS");
    ("Access-Control-Allow-Headers", "Content-Type");
    ("Content-Type", "application/json") ]%string.

Definition test_handler {B} (method : string) (env : Env) (body : option B)
    (toISOString : jsstring) : TestResponse B :=
  if decide (method = "OPTIONS"%string) then
    {| test_headers := test_cors_headers; test_status := 200;
       test_json := TestPreflight |}
  else
    {| test_headers := test_cors_headers; test_status := 200;
       test_json := TestReport "API is working" method (test_envVars env) body
                      toISOString |}.

(** ** More sample data *)

Definition transport_auth_refused : Transporter :=
  {| verify := Fulfilled tt;
     sendMail := fun _ => Rejected {| code := Some "EAUTH"%string |} |}.

Definition other_secrets_env : Env :=
  <["EMAIL_USER"%string := lit "someone@example.org"]>
    (<["EMAIL_PASS"%string := lit "another-password"]>
       (<["SITE_NAME"%string := lit "Site"]>
          (<["EMAIL_FROM"%string := lit "contact@example.org"]> ∅))).

(** * Properties *)

(** ** The built-ins on small inputs *)

Example trim_both_ends : trim (lit "  Jane Doe ") = lit "Jane Doe".
Proof. reflexivity. Qed.

Example trim_line_terminators :
  trim ([10; 9; 160]%N ++ lit "x y" ++ [8232; 65279]%N) = lit "x y".
Proof. reflexivity. Qed.

Example substring_clamps : substring (lit "abc") 0 100 = lit "abc".
Proof. reflexivity. Qed.

Example substring_swaps : substring (lit "abcdef") 4 1 = lit "bcd".
Proof. reflexivity. Qed.

Example split_space_first_name : split_space_first (lit "Jane Doe") = lit "Jane".
Proof. reflexivity. Qed.

Example emailRegex_accepts_plain : emailRegex_test (lit "a@b.c") = true.
Proof. reflexivity. Qed.

Example emailRegex_rejects_no_at : emailRegex_test (lit "not-an-email") = false.
Proof. reflexivity. Qed.

Example emailRegex_rejects_two_ats : emailRegex_test (lit "a@b@c.d") = false.
Proof. reflexivity. Qed.

Example emailRegex_accepts_dots : emailRegex_test (lit "a.b@c.d.e") = true.
Proof. reflexivity. Qed.

Example emailRegex_rejects_padding : emailRegex_test (lit " a@b.c ") = false.
Proof. reflexivity. Qed.

Example case_folding :
  email (sanitizedData toLowerCase_ascii
           {| fullname := lit "U"; email := lit "User@Example.COM"; message := lit "m" |})
  = lit "user@example.com".
Proof. reflexivity. Qed.

Example tpl_restores_quotes : tpl "<a href=`x`>" = [60; 97; 32; 104; 114; 101; 102; 61; 34; 120; 34; 62]%N.
Proof. reflexivity. Qed.

(** ** The matcher against the relational semantics *)

Lemma Matches_Void_inv s : ~ Matches Void s.
Proof. intros H; inversion H. Qed.

Lemma Matches_Eps_inv s : Matches Eps s -> s = [].
Proof. intros H; inversion H; reflexivity. Qed.

Lemma Matches_Class_inv p s : Matches (Class p) s -> exists c, s = [c] /\ p c = true.
Proof. intros H; inversion H; subst; eauto. Qed.

Lemma Matches_Cat_inv r1 r2 s :
  Matches (Cat r1 r2) s ->
  exists s1 s2, s = s1 ++ s2 /\ Matches r1 s1 /\ Matches r2 s2.
Proof. intros H; inversion H; subst; eauto. Qed.

Lemma Matches_Alt_inv r1 r2 s :
  Matches (Alt r1 r2) s -> Matches r1 s \/ Matches r2 s.
Proof. intros H; inversion H; subst; auto. Qed.

Lemma Matches_Cat_cons r1 r2 c s1 s2 :
  Matches r1 (c :: s1) -> Matches r2 s2 -> Matches (Cat r1 r2) (c :: s1 ++ s2).
Proof. intros H1 H2. apply (MCat r1 r2 (c :: s1) s2); assumption. Qed.

Lemma Matches_Cat_nil_l r1 r2 s :
  Matches r1 [] -> Matches r2 s -> Matches (Cat r1 r2) s.
Proof. intros H1 H2. apply (MCat r1 r2 [] s); assumption. Qed.

Lemma nullable_spec r : nullable r = true <-> Matches r [].
Proof.
  induction r; simpl; split; intros H.
  - discriminate.
  - inversion H.
  - constructor.
  - reflexivity.
  - discriminate.
  - inversion H.
  - apply andb_true_iff in H as [H1 H2].
    apply Matches_Cat_nil_l; tauto.
  - apply Matches_Cat_inv in H as (s1 & s2 & E & H1 & H2).
    symmetry in E. apply app_eq_nil in E as [-> ->].
    apply andb_true_iff; tauto.
  - apply orb_true_iff in H as [H|H]; [apply MAltL|apply MAltR]; tauto.
  - apply orb_true_iff. apply Matches_Alt_inv in H. tauto.
  - constructor.
  - reflexivity.
Qed.

Lemma cat_spec r1 r2 s : Matches (cat r1 r2) s <-> Matches (Cat r1 r2) s.
Proof.
  destruct r1; simpl; try tauto; split; intros H.
  - destruct (Matches_Void_inv _ H).
  - apply Matches_Cat_inv in H as (s1 & s2 & _ & H1 & _).
    destruct (Matches_Void_inv _ H1).
  - apply Matches_Cat_nil_l; [constructor | assumption].
  - apply Matches_Cat_inv in H as (s1 & s2 & -> & H1 & H2).
    apply Matches_Eps_inv in H1 as ->. assumption.
Qed.

Lemma alt_spec r1 r2 s : Matches (alt r1 r2) s <-> Matches (Alt r1 r2) s.
Proof.
  destruct r1, r2; simpl; try tauto; split; intros H;
    try (apply Matches_Alt_inv in H as [H|H];
         solve [assumption | destruct (Matches_Void_inv _ H)]);
    solve [apply MAltL; assumption | apply MAltR; assumption].
Qed.

Lemma star_cons_inv r c s :
  Matches (Star r) (c :: s) ->
  exists s1 s2, s = s1 ++ s2 /\ Matches r (c :: s1) /\ Matches (Star r) s2.
Proof.
  intros H. remember (Star r) as r' eqn:Er. remember (c :: s) as u eqn:Eu.
  revert c s Eu. induction H; intros c' s' Eu; try discriminate.
  injection Er as ->.
  destruct s1 as [|x s1]; simpl in Eu.
  - apply IHMatches2; auto.
  - injection Eu as -> <-. eauto.
Qed.

Lemma deriv_spec c r : forall s, Matches (deriv c r) s <-> Matches r (c :: s).
Proof.
  induction r; intros s; simpl.
  - split; intros H; inversion H.
  - split; intros H; inversion H.
  - destruct (p c) eqn:Ep; split; intros H.
    + apply Matches_Eps_inv in H as ->. constructor; assumption.
    + apply Matches_Class_inv in H as (x & E & Hx). injection E as _ ->. constructor.
    + inversion H.
    + apply Matches_Class_inv in H as (x & E & Hx). injection E as -> _. congruence.
  - assert (L : Matches (cat (deriv c r1) r2) s ->
                Matches (Cat r1 r2) (c :: s)).
    { intros H. apply cat_spec in H.
      apply Matches_Cat_inv in H as (s1 & s2 & -> & H1 & H2).
      apply Matches_Cat_cons; [apply IHr1|]; assumption. }
    assert (R : forall s1 s2, Matches r1 (c :: s1) -> Matches r2 s2 ->
                Matches (cat (deriv c r1) r2) (s1 ++ s2)).
    { intros s1 s2 H1 H2. apply cat_spec. constructor; [apply IHr1|]; assumption. }
    destruct (nullable r1) eqn:En.
    + rewrite alt_spec. split; intros H.
      * apply Matches_Alt_inv in H as [H|H]; [auto|].
        apply Matches_Cat_nil_l.
        -- apply nullable_spec; assumption.
        -- apply IHr2; assumption.
      * apply Matches_Cat_inv in H as (s1 & s2 & E & H1 & H2).
        destruct s1 as [|x s1]; simpl in E.
        -- subst s2. apply MAltR. apply IHr2; assumption.
        -- injection E as <- ->. apply MAltL. auto.
    + split; [exact L|]. intros H.
      apply Matches_Cat_inv in H as (s1 & s2 & E & H1 & H2).
      destruct s1 as [|x s1]; simpl in E.
      * apply nullable_spec in H1. congruence.
      * injection E as <- ->. auto.
  - rewrite alt_spec. split; intros H; apply Matches_Alt_inv in H as [H|H].
    + apply MAltL, IHr1; assumption.
    + apply MAltR, IHr2; assumption.
    + apply MAltL, IHr1; assumption.
    + apply MAltR, IHr2; assumption.
  - rewrite cat_spec. split; intros H.
    + apply Matches_Cat_inv in H as (s1 & s2 & -> & H1 & H2).
      apply (MStarCons r (c :: s1) s2); [apply IHr|]; assumption.
    + apply star_cons_inv in H as (s1 & s2 & -> & H1 & H2).
      constructor; [apply IHr|]; assumption.
Qed.

Lemma matches_spec r s : matches r s = true <-> Matches r s.
Proof.
  revert r. induction s as [|c s IH]; intros r; simpl.
  - apply nullable_spec.
  - rewrite IH. apply deriv_spec.
Qed.

Lemma star_class_spec p s :
  Matches (Star (Class p)) s <-> Forall (fun c => p c = true) s.
Proof.
  split.
  - intros H. remember (Star (Class p)) as r eqn:Er.
    induction H; try discriminate.
    + constructor.
    + injection Er as ->. apply Matches_Class_inv in H as (c & -> & Hc).
      simpl. constructor; auto.
  - induction 1 as [|c s Hc _ IH].
    + constructor.
    + apply (MStarCons (Class p) [c] s); [constructor|]; assumption.
Qed.

Lemma plus_class_spec p s :
  Matches (Plus (Class p)) s <-> s <> [] /\ Forall (fun c => p c = true) s.
Proof.
  unfold Plus. split.
  - intros H. apply Matches_Cat_inv in H as (s1 & s2 & -> & H1 & H2).
    apply Matches_Class_inv in H1 as (c & -> & Hc).
    apply star_class_spec in H2. simpl. split; [discriminate | constructor; auto].
  - intros [Hne H]. destruct H as [|c s Hc H]; [congruence|].
    apply (MCat (Class p) (Star (Class p)) [c] s).
    + constructor; assumption.
    + apply star_class_spec; assumption.
Qed.

(** The pattern, read as the shape it describes. *)
Lemma emailRegex_spec s : emailRegex_test s = true <-> emailShape s.
Proof.
  unfold emailRegex_test, emailShape, classRun. rewrite matches_spec. split.
  - intros H. unfold emailRegex in H.
    apply Matches_Cat_inv in H as (a & s1 & -> & Ha & H).
    apply Matches_Cat_inv in H as (x & s2 & -> & Hx & H).
    apply Matches_Cat_inv in H as (b & s3 & -> & Hb & H).
    apply Matches_Cat_inv in H as (y & c & -> & Hy & Hc).
    apply Matches_Class_inv in Hx as (x' & -> & Ex).
    apply Matches_Class_inv in Hy as (y' & -> & Ey).
    apply N.eqb_eq in Ex as ->. apply N.eqb_eq in Ey as ->.
    apply plus_class_spec in Ha, Hb, Hc.
    exists a, b, c. simpl. auto.
  - intros (a & b & c & -> & Ha & Hb & Hc).
    apply plus_class_spec in Ha, Hb, Hc. unfold emailRegex.
    constructor; [assumption|].
    apply (MCat _ _ [64%N]); [constructor; reflexivity|].
    constructor; [assumption|].
    apply (MCat _ _ [46%N]); [constructor; reflexivity|]. assumption.
Qed.

Lemma notSpaceAt_not_space c : notSpaceAt c = true -> isWhiteSpace c = false.
Proof.
  unfold notSpaceAt. intros H. apply negb_true_iff, orb_false_iff in H. tauto.
Qed.

Lemma emailShape_no_space s :
  emailShape s -> Forall (fun c => isWhiteSpace c = false) s.
Proof.
  intros (a & b & c & -> & [_ Ha] & [_ Hb] & [_ Hc]).
  assert (W : forall l, Forall (fun c => notSpaceAt c = true) l ->
                        Forall (fun c => isWhiteSpace c = false) l).
  { intros l Hl. eapply Forall_impl; [exact Hl|]. intros x. apply notSpaceAt_not_space. }
  apply Forall_app; split; [auto|]. constructor; [reflexivity|].
  apply Forall_app; split; [auto|]. constructor; [reflexivity|]. auto.
Qed.

Lemma emailShape_nonempty s : emailShape s -> s <> [].
Proof. intros (a & b & c & -> & _) E. destruct a; discriminate. Qed.

(** ** [trim] and [substring] *)

Lemma dropWhile_startsClean s : startsClean s -> dropWhile isWhiteSpace s = s.
Proof. destruct s as [|c s]; simpl; [reflexivity|]. intros ->. reflexivity. Qed.

Lemma startsClean_dropWhile s : startsClean (dropWhile isWhiteSpace s).
Proof.
  induction s as [|c s IH]; simpl; [exact I|].
  destruct (isWhiteSpace c) eqn:E; [assumption | exact E].
Qed.

Lemma trim_fixed s : startsClean s -> endsClean s -> trim s = s.
Proof.
  intros Hs He. unfold trim, trimStart, trimEnd.
  rewrite (dropWhile_startsClean s Hs), (dropWhile_startsClean _ He).
  apply rev_involutive.
Qed.

Lemma trimEnd_endsClean s : endsClean (trimEnd s).
Proof.
  unfold endsClean, trimEnd. rewrite rev_involutive. apply startsClean_dropWhile.
Qed.

Lemma dropWhile_suffix {A} (p : A -> bool) l :
  exists l1, l = l1 ++ dropWhile p l.
Proof.
  induction l as [|x l [l1 IH]]; simpl.
  - exists []. reflexivity.
  - destruct (p x).
    + exists (x :: l1). simpl. congruence.
    + exists []. reflexivity.
Qed.

Lemma trimEnd_prefix s : exists w, s = trimEnd s ++ w.
Proof.
  unfold trimEnd. destruct (dropWhile_suffix isWhiteSpace (rev s)) as [l1 E].
  exists (rev l1). rewrite <- rev_app_distr, <- E. symmetry. apply rev_involutive.
Qed.

Lemma trimEnd_startsClean s : startsClean s -> startsClean (trimEnd s).
Proof.
  intros Hs. destruct (trimEnd_prefix s) as [w E].
  destruct (trimEnd s) as [|c u]; [exact I|].
  rewrite E in Hs. exact Hs.
Qed.

Lemma trim_startsClean s : startsClean (trim s).
Proof. apply trimEnd_startsClean, startsClean_dropWhile. Qed.

Lemma trim_endsClean s : endsClean (trim s).
Proof. apply trimEnd_endsClean. Qed.

Lemma trim_idempotent s : trim (trim s) = trim s.
Proof. apply trim_fixed; [apply trim_startsClean | apply trim_endsClean]. Qed.

Lemma trim_no_space s :
  Forall (fun c => isWhiteSpace c = false) s -> trim s = s.
Proof.
  intros H. apply trim_fixed.
  - destruct H; simpl; auto.
  - unfold endsClean. apply Forall_rev in H. destruct H; simpl; auto.
Qed.

Lemma trim_fixed_inv s : trim s = s -> startsClean s /\ endsClean s.
Proof. intros <-. split; [apply trim_startsClean | apply trim_endsClean]. Qed.

Lemma substring_0 s n : substring s 0 n = firstn n s.
Proof.
  unfold substring. simpl. rewrite Nat.sub_0_r. change (skipn 0 s) with s.
  destruct (Nat.le_gt_cases n (length s)) as [H|H].
  - rewrite Nat.min_l by assumption. reflexivity.
  - rewrite Nat.min_r by lia. rewrite firstn_all. symmetry.
    apply firstn_all2. lia.
Qed.

Lemma substring_0_length s n : (length (substring s 0 n) <= n)%nat.
Proof. rewrite substring_0. apply firstn_le_length. Qed.

Lemma firstn_startsClean n s : startsClean s -> startsClean (firstn n s).
Proof. destruct n, s; simpl; auto. Qed.

Lemma trim_nonempty s :
  trim s <> [] <-> exists c, In c s /\ isWhiteSpace c = false.
Proof.
  split.
  - intros H. pose proof (trim_startsClean s) as Hc.
    destruct (trim s) as [|c u] eqn:E; [congruence|]. exists c. split; [|exact Hc].
    unfold trim in E. destruct (trimEnd_prefix (trimStart s)) as [w Ew].
    rewrite E in Ew. unfold trimStart in Ew.
    destruct (dropWhile_suffix isWhiteSpace s) as [l1 El].
    rewrite El, Ew. apply in_or_app. right. left. reflexivity.
  - intros (c & Hin & Hc) E.
    assert (D : forall l, In c l -> dropWhile isWhiteSpace l <> []).
    { induction l as [|x l IH]; simpl; [tauto|]. intros [->|Hl].
      - rewrite Hc. discriminate.
      - destruct (isWhiteSpace x); [auto | discriminate]. }
    unfold trim, trimEnd in E. apply (f_equal (@rev N)) in E.
    rewrite rev_involutive in E. simpl in E.
    apply (D (rev (trimStart s))); [|exact E].
    apply in_rev. rewrite rev_involutive.
    unfold trimStart. clear E D. induction s as [|x s IH]; simpl in *; [tauto|].
    destruct Hin as [->|Hin].
    + rewrite Hc. left. reflexivity.
    + destruct (isWhiteSpace x); [auto | right; assumption].
Qed.

(** ** Runs *)

Lemma bind_ret_l {A B} (a : A) (k : A -> Run B) : bind (ret a) k = k a.
Proof. unfold bind, ret. destruct (k a). reflexivity. Qed.

Lemma try_catch_throw {A} calls e (handler : JsError -> Run A) :
  try_catch (calls, Throw e) handler = (calls ++ fst (handler e), snd (handler e)).
Proof. unfold try_catch. destruct (handler e). reflexivity. Qed.

Lemma on_error_calls e : fst (on_error e) = [].
Proof. unfold on_error. repeat case_decide; reflexivity. Qed.

Lemma on_error_status e : exists error, snd (on_error e) = Normal (json_response 500 (Failure error)).
Proof. unfold on_error. repeat case_decide; eexists; reflexivity. Qed.

(** ** The steps of the handler, one by one *)

Lemma truthy_false v : truthy v = false <-> absent v.
Proof.
  unfold absent. destruct v as [[|c s]|]; simpl; split; intros H;
    auto; try discriminate; destruct H; discriminate.
Qed.

Lemma truthy_Some s : s <> [] -> truthy (Some s) = true.
Proof. destruct s; [congruence | reflexivity]. Qed.

Lemma missingVars_nil env : configured env <-> missingVars env = [].
Proof.
  unfold configured, missingVars.
  induction requiredEnvVars as [|v l IH]; simpl.
  - split; [reflexivity | constructor].
  - rewrite Forall_cons. destruct (truthy (env !! v)); simpl.
    + rewrite IH. tauto.
    + split; [intros [H _] | intros H]; discriminate.
Qed.

Lemma missingVars_cons env :
  (exists varName, In varName requiredEnvVars /\ absent (env !! varName)) ->
  (0 <? length (missingVars env))%nat = true.
Proof.
  intros (v & Hin & Ha). apply truthy_false in Ha.
  assert (Hm : In v (missingVars env)).
  { unfold missingVars. apply filter_In. rewrite Ha. auto. }
  destruct (missingVars env); [destruct Hm | reflexivity].
Qed.

Section HandlerSteps.

Variable toLowerCase : jsstring -> jsstring.
Variables (env : Env) (now : DateNow) (transporter : Transporter).

Lemma handler_config_error body :
  (exists varName, In varName requiredEnvVars /\ absent (env !! varName)) ->
  contact_handler toLowerCase env body now transporter =
  ([], Normal (json_response 500
     (Failure "Server configuration error. Please contact the administrator."))).
Proof.
  intros H. unfold contact_handler. rewrite (missingVars_cons env H). reflexivity.
Qed.

Lemma handler_missing_fields body :
  configured env ->
  absent (req_fullname body) \/ absent (req_email body) \/ absent (req_message body) ->
  contact_handler toLowerCase env body now transporter =
  ([], Normal (json_response 400 (Failure "All fields are required"))).
Proof.
  intros Hc H. unfold contact_handler.
  apply missingVars_nil in Hc. rewrite Hc. simpl.
  rewrite <- !truthy_false in H.
  assert (E : negb (truthy (req_fullname body)) || negb (truthy (req_email body))
              || negb (truthy (req_message body)) = true).
  { destruct H as [->|[->| ->]]; simpl; rewrite ?orb_true_r; reflexivity. }
  rewrite E. reflexivity.
Qed.

Lemma handler_invalid_email raw :
  configured env ->
  fullname raw <> [] -> email raw <> [] -> message raw <> [] ->
  emailRegex_test (email raw) = false ->
  contact_handler toLowerCase env (body_of raw) now transporter =
  ([], Normal (json_response 400 (Failure "Please provide a valid email address"))).
Proof.
  intros Hc Hf He Hm Hr. unfold contact_handler.
  apply missingVars_nil in Hc. rewrite Hc.
  cbn [length Nat.ltb Nat.leb body_of req_fullname req_email req_message ToString].
  rewrite !truthy_Some by assumption. rewrite Hr. reflexivity.
Qed.

(** Past validation the handler is the transport part alone. *)
Lemma handler_accepted raw :
  configured env -> accepted raw ->
  contact_handler toLowerCase env (body_of raw) now transporter =
  try_catch
    (let* unavailable := verify_transporter transporter in
     match unavailable with
     | Some response => ret response
     | None =>
         let mo := mailOptions env (sanitizedData toLowerCase raw) now in
         let* info := await (CallSendMail mo) (sendMail transporter mo) in
         ret (json_response 200 (Success "Your message has been sent successfully!"))
     end)
    on_error.
Proof.
  intros Hc (Hf & He & Hm & Hr). unfold contact_handler.
  apply missingVars_nil in Hc. rewrite Hc.
  cbn [length Nat.ltb Nat.leb body_of req_fullname req_email req_message
       ToString receiver].
  rewrite !truthy_Some by assumption. rewrite Hr.
  cbn [negb orb]. rewrite !bind_ret_l. destruct raw. reflexivity.
Qed.

Lemma handler_verify_rejected raw e :
  configured env -> accepted raw ->
  verify transporter = Rejected e ->
  contact_handler toLowerCase env (body_of raw) now transporter =
  ([CallVerify], Normal (json_response 500
     (Failure "Email service is currently unavailable. Please try again later."))).
Proof.
  intros Hc Ha Hv. rewrite handler_accepted by assumption.
  unfold verify_transporter. rewrite Hv. reflexivity.
Qed.

Lemma handler_send_fulfilled raw u info :
  configured env -> accepted raw ->
  verify transporter = Fulfilled u ->
  sendMail transporter (mailOptions env (sanitizedData toLowerCase raw) now)
    = Fulfilled info ->
  contact_handler toLowerCase env (body_of raw) now transporter =
  ([CallVerify; CallSendMail (mailOptions env (sanitizedData toLowerCase raw) now)],
   Normal (json_response 200 (Success "Your message has been sent successfully!"))).
Proof.
  intros Hc Ha Hv Hs. rewrite handler_accepted by assumption.
  unfold verify_transporter. rewrite Hv.
  cbn [await bind try_catch ret app]. rewrite Hs. reflexivity.
Qed.

Lemma handler_send_rejected raw u e :
  configured env -> accepted raw ->
  verify transporter = Fulfilled u ->
  sendMail transporter (mailOptions env (sanitizedData toLowerCase raw) now)
    = Rejected e ->
  contact_handler toLowerCase env (body_of raw) now transporter =
  ([CallVerify; CallSendMail (mailOptions env (sanitizedData toLowerCase raw) now)],
   snd (on_error e)).
Proof.
  intros Hc Ha Hv Hs. rewrite handler_accepted by assumption.
  unfold verify_transporter. rewrite Hv.
  cbn [await bind try_catch ret app]. rewrite Hs.
  rewrite try_catch_throw, on_error_calls. reflexivity.
Qed.

End HandlerSteps.

Section Reached.

Variable toLowerCase : jsstring -> jsstring.
Variables (env : Env) (now : DateNow) (transporter : Transporter).

(** An accepted submission reaches the transport, and whatever happens
    there the answer is not a 400. *)
Lemma handler_accepted_reaches_verify raw :
  configured env -> accepted raw ->
  (exists rest,
     fst (contact_handler toLowerCase env (body_of raw) now transporter)
     = CallVerify :: rest) /\
  ~ isValidationError (contact_handler toLowerCase env (body_of raw) now transporter).
Proof.
  intros Hc Ha. unfold isValidationError.
  destruct (verify transporter) as [u|e] eqn:Hv.
  - destruct (sendMail transporter
                (mailOptions env (sanitizedData toLowerCase raw) now)) as [info|e] eqn:Hs.
    + rewrite (handler_send_fulfilled _ _ _ _ _ u info) by assumption.
      split; [eexists; reflexivity|]. intros [error H]. discriminate.
    + rewrite (handler_send_rejected _ _ _ _ _ u e) by assumption.
      split; [eexists; reflexivity|]. intros [error H]. simpl in H.
      destruct (on_error_status e) as [error' E]. rewrite E in H. discriminate.
  - rewrite (handler_verify_rejected _ _ _ _ _ e) by assumption.
    split; [eexists; reflexivity|]. intros [error H]. discriminate.
Qed.

End Reached.

Lemma accepted_jane : accepted jane.
Proof. repeat split; discriminate. Qed.

Lemma configured_sample_env : configured sample_env.
Proof. unfold configured, requiredEnvVars. repeat constructor. Qed.

Lemma forallb_isAscii s : forallb (fun c => (c <? 128)%N) s = true -> isAscii s.
Proof.
  unfold isAscii. intros H. apply Forall_forall. intros c Hc.
  rewrite forallb_forall in H. apply N.ltb_lt, H. apply list_elem_of_In. exact Hc.
Qed.

(** ** Lower-casing on Basic Latin *)

Lemma toLowerCase_unit_idem c :
  toLowerCase_unit (toLowerCase_unit c) = toLowerCase_unit c.
Proof.
  unfold toLowerCase_unit.
  destruct (N.leb_spec 65 c), (N.leb_spec c 90); simpl;
    repeat match goal with
           | |- context [N.leb ?a ?b] => destruct (N.leb_spec a b)
           end; simpl; try reflexivity; lia.
Qed.

Lemma isWhiteSpace_letters c : (33 <= c <= 159)%N -> isWhiteSpace c = false.
Proof.
  intros H. unfold isWhiteSpace.
  repeat match goal with
         | |- context [N.eqb ?a ?b] => destruct (N.eqb_spec a b); [lia|]
         end.
  destruct (N.leb_spec 8192 c); [lia|]. reflexivity.
Qed.

Lemma isWhiteSpace_toLowerCase_unit c :
  isWhiteSpace (toLowerCase_unit c) = isWhiteSpace c.
Proof.
  unfold toLowerCase_unit.
  destruct (N.leb_spec 65 c), (N.leb_spec c 90); simpl; try reflexivity.
  rewrite !isWhiteSpace_letters by lia. reflexivity.
Qed.

Lemma notSpaceAt_toLowerCase_unit c :
  notSpaceAt (toLowerCase_unit c) = notSpaceAt c.
Proof.
  unfold notSpaceAt. rewrite isWhiteSpace_toLowerCase_unit. f_equal. f_equal.
  unfold toLowerCase_unit.
  destruct (N.leb_spec 65 c), (N.leb_spec c 90); simpl; try reflexivity.
  destruct (N.eqb_spec (c + 32) 64), (N.eqb_spec c 64); try reflexivity; lia.
Qed.

Lemma startsClean_toLowerCase_ascii s :
  startsClean (toLowerCase_ascii s) <-> startsClean s.
Proof.
  destruct s as [|c s]; simpl; [tauto|].
  rewrite isWhiteSpace_toLowerCase_unit. tauto.
Qed.

Lemma endsClean_toLowerCase_ascii s :
  endsClean (toLowerCase_ascii s) <-> endsClean s.
Proof.
  unfold endsClean, toLowerCase_ascii. rewrite <- map_rev.
  apply startsClean_toLowerCase_ascii.
Qed.

Lemma toLowerCase_ascii_nonempty s : s <> [] -> toLowerCase_ascii s <> [].
Proof. destruct s; [congruence | discriminate]. Qed.

Lemma toLowerCase_ascii_stable s n :
  toLowerCase_ascii (firstn n (toLowerCase_ascii s)) = firstn n (toLowerCase_ascii s).
Proof.
  unfold toLowerCase_ascii. rewrite <- firstn_map, List.map_map.
  f_equal. apply map_ext. intros c. apply toLowerCase_unit_idem.
Qed.

Lemma toLowerCase_ascii_trimmed s :
  trim s = s -> trim (toLowerCase_ascii s) = toLowerCase_ascii s.
Proof.
  intros H. apply trim_fixed_inv in H as [Hs He]. apply trim_fixed.
  - apply startsClean_toLowerCase_ascii; assumption.
  - apply endsClean_toLowerCase_ascii; assumption.
Qed.

Lemma classRun_toLowerCase_ascii a : classRun a -> classRun (toLowerCase_ascii a).
Proof.
  intros [Hne H]. split; [apply toLowerCase_ascii_nonempty; assumption|].
  clear Hne. induction H as [|c l Hc _ IH]; simpl; [constructor|].
  constructor; [|exact IH].
  rewrite notSpaceAt_toLowerCase_unit. exact Hc.
Qed.

Lemma toLowerCase_ascii_keeps_shape s :
  emailRegex_test s = true -> emailRegex_test (toLowerCase_ascii s) = true.
Proof.
  rewrite !emailRegex_spec. intros (a & b & c & -> & Ha & Hb & Hc).
  exists (toLowerCase_ascii a), (toLowerCase_ascii b), (toLowerCase_ascii c).
  split; [|auto using classRun_toLowerCase_ascii].
  unfold toLowerCase_ascii. rewrite List.map_app. simpl. rewrite List.map_app. reflexivity.
Qed.

(** ** Sanitization *)

Lemma firstn_nonempty {A} n (l : list A) :
  (0 < n)%nat -> firstn n l <> [] <-> l <> [].
Proof. destruct n, l; simpl; intros H; split; intros; try congruence; lia. Qed.

Lemma accepted_email_trimmed raw : accepted raw -> trim (email raw) = email raw.
Proof.
  intros (_ & _ & _ & H). apply trim_no_space, emailShape_no_space, emailRegex_spec, H.
Qed.

Lemma firstn_endsClean_uncut n s :
  (length s <= n)%nat -> endsClean s -> endsClean (firstn n s).
Proof. intros H. rewrite firstn_all2 by assumption. tauto. Qed.

Section Sanitized.

Variable toLowerCase : jsstring -> jsstring.

Lemma sanitizedData_fullname raw :
  fullname (sanitizedData toLowerCase raw) = firstn 100 (trim (fullname raw)).
Proof. apply substring_0. Qed.

Lemma sanitizedData_email raw :
  email (sanitizedData toLowerCase raw) = firstn 100 (toLowerCase (trim (email raw))).
Proof. apply substring_0. Qed.

Lemma sanitizedData_message raw :
  message (sanitizedData toLowerCase raw) = firstn 1000 (trim (message raw)).
Proof. apply substring_0. Qed.

Lemma sanitizedData_caps raw :
  (length (fullname (sanitizedData toLowerCase raw)) <= 100)%nat /\
  (length (email (sanitizedData toLowerCase raw)) <= 100)%nat /\
  (length (message (sanitizedData toLowerCase raw)) <= 1000)%nat.
Proof. repeat split; apply substring_0_length. Qed.

(** A field that is already trimmed and within its cap goes through
    unchanged; one that is trimmed and longer is cut to the cap. *)
Lemma firstn_trimmed_exact n s :
  trim s = s -> (n <= length s)%nat ->
  firstn n (trim s) = firstn n s /\ length (firstn n (trim s)) = n.
Proof.
  intros -> H. split; [reflexivity|]. rewrite length_firstn. lia.
Qed.

End Sanitized.

(** * The specified properties, C1 to C10 *)

(** C1 (as amended). For every submission accepted by the two validation
    steps, the sanitized [fullname] and [email] have at most 100 units and
    the sanitized [message] at most 1000, and the sanitized [email] is not
    empty.  The sanitized [fullname] and [message] are non-empty whenever
    the raw field has a code unit that is not white space.  The sanitized
    [email] matches the pattern whenever the lower-cased e-mail has at most
    100 units, given that lower-casing keeps the shape. *)
Theorem sanitizedData_invariant
    (toLowerCase : jsstring -> jsstring) (raw : Submission) :
  (forall s, emailRegex_test s = true -> emailRegex_test (toLowerCase s) = true) ->
  accepted raw ->
  let sd := sanitizedData toLowerCase raw in
  (length (fullname sd) <= 100)%nat /\
  (length (email sd) <= 100)%nat /\
  (length (message sd) <= 1000)%nat /\
  email sd <> [] /\
  ((exists c, In c (fullname raw) /\ isWhiteSpace c = false) -> fullname sd <> []) /\
  ((exists c, In c (message raw) /\ isWhiteSpace c = false) -> message sd <> []) /\
  ((length (toLowerCase (email raw)) <= 100)%nat -> emailRegex_test (email sd) = true).
Proof.
  intros Hshape Ha sd. subst sd.
  destruct (sanitizedData_caps toLowerCase raw) as (C1 & C2 & C3).
  rewrite sanitizedData_fullname, sanitizedData_email, sanitizedData_message in *.
  rewrite (accepted_email_trimmed raw Ha) in *.
  destruct Ha as (_ & _ & _ & Hr).
  pose proof (Hshape _ Hr) as Hl.
  repeat split; try assumption.
  - apply firstn_nonempty; [lia|].
    apply emailShape_nonempty, emailRegex_spec, Hl.
  - intros H. apply firstn_nonempty; [lia|]. apply trim_nonempty, H.
  - intros H. apply firstn_nonempty; [lia|]. apply trim_nonempty, H.
  - intros H. rewrite firstn_all2 by exact H. exact Hl.
Qed.

Lemma sanitizedData_invariant_witness :
  let sd := sanitizedData toLowerCase_ascii jane in
  (length (fullname sd) <= 100)%nat /\
  (length (email sd) <= 100)%nat /\
  (length (message sd) <= 1000)%nat /\
  email sd <> [] /\ fullname sd <> [] /\ message sd <> [] /\
  emailRegex_test (email sd) = true.
Proof.
  destruct (sanitizedData_invariant toLowerCase_ascii jane
              toLowerCase_ascii_keeps_shape accepted_jane)
    as (C1 & C2 & C3 & He & Hf & Hm & Hs).
  refine (conj C1 (conj C2 (conj C3 (conj He (conj (Hf _) (conj (Hm _) (Hs _))))))).
  - exists 74%N. split; [left; reflexivity | reflexivity].
  - exists 72%N. split; [left; reflexivity | reflexivity].
  - vm_compute. lia.
Defined.

(** C1 as stated fails: a [fullname] of one space passes validation (it is
    a non-empty raw string), is sanitized to the empty string, and the
    submission is sent. *)
Lemma blank_name_sanitized_empty :
  accepted blank_name /\
  forall toLowerCase : jsstring -> jsstring,
    fullname (sanitizedData toLowerCase blank_name) = [] /\
    contact_handler toLowerCase sample_env (body_of blank_name) sample_now transport_ok =
    ([CallVerify;
      CallSendMail (mailOptions sample_env (sanitizedData toLowerCase blank_name) sample_now)],
     Normal (json_response 200 (Success "Your message has been sent successfully!"))).
Proof.
  assert (Ha : accepted blank_name) by (repeat split; discriminate).
  split; [exact Ha|]. intros toLowerCase. split; [reflexivity|].
  apply (handler_send_fulfilled _ _ _ _ _ tt {| messageId := lit "<1@example.com>" |});
    [exact configured_sample_env | exact Ha | reflexivity | reflexivity].
Qed.

(** C2 (as amended). Sanitizing a sanitized submission gives it back
    whenever no sanitized field ends in white space, and so whenever no
    field is cut by its cap, for a lower-casing that leaves prefixes of its
    results alone and keeps a trimmed string trimmed. *)
Theorem sanitizedData_idempotent_when_ends_clean
    (toLowerCase : jsstring -> jsstring) (raw : Submission) :
  (forall s n, toLowerCase (firstn n (toLowerCase s)) = firstn n (toLowerCase s)) ->
  (forall s, trim s = s -> trim (toLowerCase s) = toLowerCase s) ->
  let sd := sanitizedData toLowerCase raw in
  (endsClean (fullname sd) -> endsClean (email sd) -> endsClean (message sd) ->
   sanitizedData toLowerCase sd = sd) /\
  ((length (trim (fullname raw)) <= 100)%nat ->
   (length (toLowerCase (trim (email raw))) <= 100)%nat ->
   (length (trim (message raw)) <= 1000)%nat ->
   sanitizedData toLowerCase sd = sd).
Proof.
  intros Hstable Htrim sd. subst sd.
  assert (T : forall n s, endsClean (firstn n (trim s)) ->
              firstn n (trim (firstn n (trim s))) = firstn n (trim s)).
  { intros n s H. rewrite (trim_fixed (firstn n (trim s))).
    - apply take_idemp.
    - apply firstn_startsClean, trim_startsClean.
    - exact H. }
  assert (L : trim (toLowerCase (trim (email raw))) = toLowerCase (trim (email raw))).
  { apply Htrim, trim_idempotent. }
  assert (Main :
    endsClean (fullname (sanitizedData toLowerCase raw)) ->
    endsClean (email (sanitizedData toLowerCase raw)) ->
    endsClean (message (sanitizedData toLowerCase raw)) ->
    sanitizedData toLowerCase (sanitizedData toLowerCase raw)
    = sanitizedData toLowerCase raw).
  { rewrite sanitizedData_fullname, sanitizedData_email, sanitizedData_message.
    intros Hf He Hm. unfold sanitizedData at 1.
    rewrite !substring_0, sanitizedData_fullname, sanitizedData_email,
      sanitizedData_message.
    rewrite (T 100 _ Hf), (T 1000 _ Hm).
    rewrite (trim_fixed (firstn 100 (toLowerCase (trim (email raw))))).
    - rewrite Hstable, take_idemp. unfold sanitizedData. rewrite !substring_0.
      reflexivity.
    - apply firstn_startsClean. apply (trim_fixed_inv _ L).
    - exact He. }
  split; [exact Main|].
  intros Lf Le Lm. apply Main.
  - rewrite sanitizedData_fullname. apply firstn_endsClean_uncut, trim_endsClean. exact Lf.
  - rewrite sanitizedData_email. apply firstn_endsClean_uncut; [exact Le|].
    apply (trim_fixed_inv _ L).
  - rewrite sanitizedData_message. apply firstn_endsClean_uncut, trim_endsClean. exact Lm.
Qed.

Lemma sanitizedData_idempotent_witness :
  sanitizedData toLowerCase_ascii (sanitizedData toLowerCase_ascii jane)
  = sanitizedData toLowerCase_ascii jane.
Proof.
  destruct (sanitizedData_idempotent_when_ends_clean toLowerCase_ascii jane
              toLowerCase_ascii_stable toLowerCase_ascii_trimmed) as [H _].
  apply H.
  - vm_compute. reflexivity.
  - vm_compute. reflexivity.
  - vm_compute. reflexivity.
Defined.

(** C2 as stated fails: a 101-unit name whose 100th unit is a space is cut
    after the space, and the second pass trims that space away. *)
Lemma sanitizedData_not_idempotent :
  length (fullname cut_at_space) = 101%nat /\
  forall toLowerCase : jsstring -> jsstring,
    sanitizedData toLowerCase (sanitizedData toLowerCase cut_at_space)
    <> sanitizedData toLowerCase cut_at_space.
Proof.
  split; [reflexivity|].
  intros toLowerCase H. apply (f_equal fullname) in H.
  vm_compute in H. discriminate H.
Qed.

(** C3. Whatever the submission, when one of the required keys of the
    configuration is absent or empty the handler answers 500 with the
    generic configuration message, the answer does not depend on the
    submission, and neither [verify] nor [sendMail] is called. *)
Theorem missing_configuration_stops_everything
    (toLowerCase : jsstring -> jsstring) (env : Env) (body : ReqBody)
    (now : DateNow) (transporter : Transporter) :
  (exists varName, In varName requiredEnvVars /\ absent (env !! varName)) ->
  contact_handler toLowerCase env body now transporter =
    ([], Normal (json_response 500
       (Failure "Server configuration error. Please contact the administrator.")))
  /\ forall body',
       contact_handler toLowerCase env body' now transporter =
       contact_handler toLowerCase env body now transporter.
Proof.
  intros H. split.
  - apply handler_config_error. exact H.
  - intros body'. rewrite !handler_config_error by exact H. reflexivity.
Qed.

Lemma missing_configuration_witness :
  contact_handler toLowerCase_ascii (delete "EMAIL_PASS"%string sample_env)
    (body_of jane) sample_now transport_ok =
    ([], Normal (json_response 500
       (Failure "Server configuration error. Please contact the administrator.")))
  /\ forall body',
       contact_handler toLowerCase_ascii (delete "EMAIL_PASS"%string sample_env)
         body' sample_now transport_ok =
       contact_handler toLowerCase_ascii (delete "EMAIL_PASS"%string sample_env)
         (body_of jane) sample_now transport_ok.
Proof.
  apply (missing_configuration_stops_everything toLowerCase_ascii
           (delete "EMAIL_PASS"%string sample_env) (body_of jane) sample_now transport_ok).
  exists "EMAIL_PASS"%string. split.
  - simpl. auto.
  - left. vm_compute. reflexivity.
Defined.

(** C4. With a complete configuration, a submission in which [fullname],
    [email] or [message] is missing or the empty string is answered 400
    "All fields are required", and neither [verify] nor [sendMail] is
    called. *)
Theorem missing_field_is_rejected
    (toLowerCase : jsstring -> jsstring) (env : Env) (body : ReqBody)
    (now : DateNow) (transporter : Transporter) :
  configured env ->
  absent (req_fullname body) \/ absent (req_email body) \/ absent (req_message body) ->
  contact_handler toLowerCase env body now transporter =
    ([], Normal (json_response 400 (Failure "All fields are required")))
  /\ isValidationError (contact_handler toLowerCase env body now transporter).
Proof.
  intros Hc H.
  rewrite (handler_missing_fields toLowerCase env now transporter body Hc H).
  split; [reflexivity | eexists; reflexivity].
Qed.

Lemma missing_field_witness :
  let body := {| req_fullname := Some (lit "Jane Doe");
                 req_email := Some (lit "jane@x.com");
                 req_message := None |} in
  contact_handler toLowerCase_ascii sample_env body sample_now transport_ok =
    ([], Normal (json_response 400 (Failure "All fields are required")))
  /\ isValidationError
       (contact_handler toLowerCase_ascii sample_env body sample_now transport_ok).
Proof.
  apply (missing_field_is_rejected toLowerCase_ascii sample_env
           {| req_fullname := Some (lit "Jane Doe");
              req_email := Some (lit "jane@x.com");
              req_message := None |} sample_now transport_ok).
  - exact configured_sample_env.
  - right. right. left. reflexivity.
Defined.

(** C5. With a complete configuration and the three fields present, the
    handler answers with a validation error exactly when the raw e-mail
    does not match the pattern; then the answer is 400 "Please provide a
    valid email address".  "not-an-email" is rejected and "a@b.c" gets past
    this step. *)
Theorem email_pattern_decides_validation
    (toLowerCase : jsstring -> jsstring) (env : Env) (raw : Submission)
    (now : DateNow) (transporter : Transporter) :
  configured env ->
  fullname raw <> [] -> email raw <> [] -> message raw <> [] ->
  (isValidationError (contact_handler toLowerCase env (body_of raw) now transporter)
   <-> emailRegex_test (email raw) = false)
  /\ (emailRegex_test (email raw) = false ->
      contact_handler toLowerCase env (body_of raw) now transporter =
      ([], Normal (json_response 400 (Failure "Please provide a valid email address"))))
  /\ isValidationError
       (contact_handler toLowerCase env
          (body_of {| fullname := fullname raw; email := lit "not-an-email";
                      message := message raw |}) now transporter)
  /\ ~ isValidationError
       (contact_handler toLowerCase env
          (body_of {| fullname := fullname raw; email := lit "a@b.c";
                      message := message raw |}) now transporter).
Proof.
  intros Hc Hf He Hm.
  assert (R : forall r, fullname r <> [] -> email r <> [] -> message r <> [] ->
              emailRegex_test (email r) = false ->
              isValidationError (contact_handler toLowerCase env (body_of r) now transporter)).
  { intros r ? ? ? Hr. rewrite handler_invalid_email by assumption.
    eexists; reflexivity. }
  repeat split.
  - intros Hv. destruct (emailRegex_test (email raw)) eqn:Hr; [|reflexivity].
    exfalso. eapply handler_accepted_reaches_verify; [exact Hc | | exact Hv].
    repeat split; assumption.
  - apply R; assumption.
  - intros Hr. apply handler_invalid_email; assumption.
  - apply R; simpl; auto; discriminate.
  - apply handler_accepted_reaches_verify; [exact Hc|].
    repeat split; simpl; auto; discriminate.
Qed.

Lemma email_pattern_witness :
  (isValidationError
     (contact_handler toLowerCase_ascii sample_env (body_of jane) sample_now transport_ok)
   <-> emailRegex_test (email jane) = false)
  /\ (emailRegex_test (email jane) = false ->
      contact_handler toLowerCase_ascii sample_env (body_of jane) sample_now transport_ok =
      ([], Normal (json_response 400 (Failure "Please provide a valid email address"))))
  /\ isValidationError
       (contact_handler toLowerCase_ascii sample_env
          (body_of {| fullname := fullname jane; email := lit "not-an-email";
                      message := message jane |}) sample_now transport_ok)
  /\ ~ isValidationError
       (contact_handler toLowerCase_ascii sample_env
          (body_of {| fullname := fullname jane; email := lit "a@b.c";
                      message := message jane |}) sample_now transport_ok).
Proof.
  apply (email_pattern_decides_validation toLowerCase_ascii sample_env jane
           sample_now transport_ok).
  - exact configured_sample_env.
  - discriminate.
  - discriminate.
  - discriminate.
Defined.

(** C6 (as amended). For an accepted submission whose [verify] succeeds,
    the message handed to [sendMail] is composed from the sanitized data,
    whose [message] is exactly the first 1000 units of the trimmed raw
    message and whose [fullname] is the first 100 units of the trimmed raw
    name; so a 2000-unit message (a 150-unit name) without white space at
    either end is forwarded as exactly its first 1000 (100) units.  The
    answer depends on how [sendMail] settles only: nothing in it tells
    that content was cut. *)
Theorem truncation_is_silent
    (toLowerCase : jsstring -> jsstring) (env : Env) (raw : Submission)
    (now : DateNow) (transporter : Transporter) :
  configured env -> accepted raw ->
  verify transporter = Fulfilled tt ->
  let sd := sanitizedData toLowerCase raw in
  let mo := mailOptions env sd now in
  let run := contact_handler toLowerCase env (body_of raw) now transporter in
  fst run = [CallVerify; CallSendMail mo] /\
  snd run = match sendMail transporter mo with
            | Fulfilled _ =>
                Normal (json_response 200
                  (Success "Your message has been sent successfully!"))
            | Rejected e => snd (on_error e)
            end /\
  message sd = firstn 1000 (trim (message raw)) /\
  fullname sd = firstn 100 (trim (fullname raw)) /\
  (length (message raw) = 2000%nat -> trim (message raw) = message raw ->
   message sd = firstn 1000 (message raw) /\ length (message sd) = 1000%nat) /\
  (length (fullname raw) = 150%nat -> trim (fullname raw) = fullname raw ->
   fullname sd = firstn 100 (fullname raw) /\ length (fullname sd) = 100%nat).
Proof.
  intros Hc Ha Hv sd mo run. subst sd mo run.
  rewrite sanitizedData_message, sanitizedData_fullname.
  assert (Hrun :
    contact_handler toLowerCase env (body_of raw) now transporter =
    ([CallVerify; CallSendMail (mailOptions env (sanitizedData toLowerCase raw) now)],
     match sendMail transporter (mailOptions env (sanitizedData toLowerCase raw) now) with
     | Fulfilled _ =>
         Normal (json_response 200 (Success "Your message has been sent successfully!"))
     | Rejected e => snd (on_error e)
     end)).
  { destruct (sendMail transporter
                (mailOptions env (sanitizedData toLowerCase raw) now)) as [info|e] eqn:Hs.
    - apply (handler_send_fulfilled _ _ _ _ _ tt info); assumption.
    - apply (handler_send_rejected _ _ _ _ _ tt e); assumption. }
  rewrite Hrun. repeat split.
  - apply firstn_trimmed_exact; [assumption | lia].
  - apply firstn_trimmed_exact; [assumption | lia].
  - apply firstn_trimmed_exact; [assumption | lia].
  - apply firstn_trimmed_exact; [assumption | lia].
Qed.

Lemma truncation_is_silent_witness :
  let sd := sanitizedData toLowerCase_ascii oversized in
  let mo := mailOptions sample_env sd sample_now in
  let run := contact_handler toLowerCase_ascii sample_env (body_of oversized)
               sample_now transport_ok in
  fst run = [CallVerify; CallSendMail mo] /\
  snd run = Normal (json_response 200
              (Success "Your message has been sent successfully!")) /\
  message sd = firstn 1000 (message oversized) /\
  length (message sd) = 1000%nat /\
  fullname sd = firstn 100 (fullname oversized) /\
  length (fullname sd) = 100%nat.
Proof.
  assert (Ha : accepted oversized) by (repeat split; discriminate).
  destruct (truncation_is_silent toLowerCase_ascii sample_env oversized sample_now
              transport_ok configured_sample_env Ha eq_refl)
    as (Hcalls & Hres & _ & _ & Hm & Hf).
  destruct Hm as [Hm1 Hm2]; [reflexivity | vm_compute; reflexivity |].
  destruct Hf as [Hf1 Hf2]; [reflexivity | vm_compute; reflexivity |].
  exact (conj Hcalls (conj Hres (conj Hm1 (conj Hm2 (conj Hf1 Hf2))))).
Defined.

(** C6 as stated fails: the cap applies after trimming, so a 2000-unit
    message that starts with a space is forwarded as 1000 units that are
    not its first 1000. *)
Lemma truncation_counts_from_trimmed :
  accepted indented_message /\
  length (message indented_message) = 2000%nat /\
  forall toLowerCase : jsstring -> jsstring,
    message (sanitizedData toLowerCase indented_message)
    <> firstn 1000 (message indented_message).
Proof.
  split; [repeat split; discriminate|]. split; [reflexivity|].
  intros toLowerCase H. vm_compute in H. discriminate H.
Qed.

(** C7. For an accepted submission, when [verify()] rejects the handler
    answers 500 with the fixed "Email service is currently unavailable"
    message, whatever the error was, and [sendMail] is never called: the
    only transport call is [verify]. *)
Theorem verify_failure_is_unavailable
    (toLowerCase : jsstring -> jsstring) (env : Env) (raw : Submission)
    (now : DateNow) (transporter : Transporter) (verifyError : JsError) :
  configured env -> accepted raw ->
  verify transporter = Rejected verifyError ->
  contact_handler toLowerCase env (body_of raw) now transporter =
    ([CallVerify], Normal (json_response 500
       (Failure "Email service is currently unavailable. Please try again later."))).
Proof.
  intros Hc Ha Hv. apply (handler_verify_rejected _ _ _ _ _ verifyError); assumption.
Qed.

Lemma verify_failure_witness :
  contact_handler toLowerCase_ascii sample_env (body_of jane) sample_now transport_down =
    ([CallVerify], Normal (json_response 500
       (Failure "Email service is currently unavailable. Please try again later."))).
Proof.
  apply (verify_failure_is_unavailable toLowerCase_ascii sample_env jane sample_now
           transport_down {| code := Some "ECONNECTION"%string |}).
  - exact configured_sample_env.
  - exact accepted_jane.
  - reflexivity.
Defined.

(** C8 (as amended). The composed message is a function of the sanitized
    data, the configuration and the clock: [from], [to] and [subject] do
    not depend on the clock, [subject] is "New Contact - " followed by the
    sanitized name and [to] is the configured [EMAIL_USER]; the whole
    message, whose bodies embed the formatted current date, is the same in
    two runs exactly when the formatted dates of the two runs are. *)
Theorem mailOptions_deterministic_up_to_clock
    (env : Env) (sd : Submission) (now1 now2 : DateNow) :
  from (mailOptions env sd now1) = from (mailOptions env sd now2) /\
  to (mailOptions env sd now1) = to (mailOptions env sd now2) /\
  subject (mailOptions env sd now1) = subject (mailOptions env sd now2) /\
  subject (mailOptions env sd now1) = lit "New Contact - " ++ fullname sd /\
  to (mailOptions env sd now1) = env !! "EMAIL_USER"%string /\
  (mailOptions env sd now1 = mailOptions env sd now2 <-> now1 = now2).
Proof.
  repeat split; [|intros ->; reflexivity].
  intros H.
  pose proof (f_equal html H) as Hh. pose proof (f_equal text H) as Ht.
  unfold mailOptions in Hh, Ht. cbn [html text] in Hh, Ht.
  do 17 apply app_inv_head in Hh. apply app_inv_tail in Hh.
  do 7 apply app_inv_head in Ht. apply app_inv_tail in Ht.
  destruct now1, now2. simpl in *. congruence.
Qed.

(** C8 as stated fails: the same sanitized data and configuration, composed
    at two moments a second apart, give two different messages. *)
Lemma mailOptions_changes_with_clock :
  mailOptions sample_env jane sample_now <> mailOptions sample_env jane sample_later.
Proof.
  intros H. apply (f_equal text) in H. vm_compute in H. discriminate H.
Qed.

(** C9. End to end: Jane Doe's submission, with every required key
    configured and a transport whose [verify] and [sendMail] both succeed,
    is answered 200 with "Your message has been sent successfully!", after
    one [verify] and one [sendMail] of the composed message. *)
Theorem jane_doe_end_to_end
    (toLowerCase : jsstring -> jsstring) (env : Env)
    (now : DateNow) (transporter : Transporter) :
  configured env ->
  verify transporter = Fulfilled tt ->
  (forall m, exists info, sendMail transporter m = Fulfilled info) ->
  contact_handler toLowerCase env (body_of jane) now transporter =
    ([CallVerify; CallSendMail (mailOptions env (sanitizedData toLowerCase jane) now)],
     Normal (json_response 200 (Success "Your message has been sent successfully!"))).
Proof.
  intros Hc Hv Hs.
  destruct (Hs (mailOptions env (sanitizedData toLowerCase jane) now)) as [info Hi].
  apply (handler_send_fulfilled _ _ _ _ _ tt info); auto using accepted_jane.
Qed.

Lemma jane_doe_witness :
  contact_handler toLowerCase_ascii sample_env (body_of jane) sample_now transport_ok =
    ([CallVerify;
      CallSendMail (mailOptions sample_env (sanitizedData toLowerCase_ascii jane) sample_now)],
     Normal (json_response 200 (Success "Your message has been sent successfully!"))).
Proof.
  apply (jane_doe_end_to_end toLowerCase_ascii sample_env sample_now transport_ok).
  - exact configured_sample_env.
  - reflexivity.
  - intros m. eexists. reflexivity.
Defined.

(** C10. The pattern is tried on the raw [email], before any trimming or
    lower-casing: a submission whose raw e-mail fails it is answered 400
    even when the trimmed, lower-cased e-mail would match, as for
    " a@b.c "; and a raw e-mail that matches is let through to the
    transport even when the 100-unit cut of the sanitized value no longer
    matches, as for a hundred letters followed by "@b.c". *)
Theorem pattern_is_tried_on_raw_email
    (toLowerCase : jsstring -> jsstring) (env : Env)
    (now : DateNow) (transporter : Transporter) :
  (forall s, isAscii s -> toLowerCase s = toLowerCase_ascii s) ->
  configured env ->
  (forall raw,
     fullname raw <> [] -> email raw <> [] -> message raw <> [] ->
     emailRegex_test (email raw) = false ->
     emailRegex_test (toLowerCase (trim (email raw))) = true ->
     contact_handler toLowerCase env (body_of raw) now transporter =
     ([], Normal (json_response 400 (Failure "Please provide a valid email address")))) /\
  (emailRegex_test padded_email = false /\
   emailRegex_test (toLowerCase (trim padded_email)) = true) /\
  (forall raw,
     accepted raw ->
     emailRegex_test (email (sanitizedData toLowerCase raw)) = false ->
     (exists rest,
        fst (contact_handler toLowerCase env (body_of raw) now transporter)
        = CallVerify :: rest) /\
     ~ isValidationError (contact_handler toLowerCase env (body_of raw) now transporter)) /\
  (emailRegex_test long_email = true /\
   forall fullname message,
     emailRegex_test
       (email (sanitizedData toLowerCase
                 {| fullname := fullname; email := long_email; message := message |}))
     = false).
Proof.
  intros Hascii Hc.
  assert (Tp : trim padded_email = lit "a@b.c") by reflexivity.
  assert (Tl : trim long_email = long_email) by (vm_compute; reflexivity).
  assert (Ap : isAscii (lit "a@b.c")) by (apply forallb_isAscii; reflexivity).
  assert (Al : isAscii long_email) by (apply forallb_isAscii; vm_compute; reflexivity).
  split; [|split; [|split]].
  - intros raw Hf He Hm Hr _. apply handler_invalid_email; assumption.
  - split; [reflexivity|]. rewrite Tp, (Hascii _ Ap). reflexivity.
  - intros raw Ha _. apply handler_accepted_reaches_verify; assumption.
  - split; [vm_compute; reflexivity|]. intros f m.
    rewrite sanitizedData_email. cbn [email].
    rewrite Tl, (Hascii _ Al). vm_compute. reflexivity.
Qed.

Lemma pattern_on_raw_email_witness :
  (forall raw,
     fullname raw <> [] -> email raw <> [] -> message raw <> [] ->
     emailRegex_test (email raw) = false ->
     emailRegex_test (toLowerCase_ascii (trim (email raw))) = true ->
     contact_handler toLowerCase_ascii sample_env (body_of raw) sample_now transport_ok =
     ([], Normal (json_response 400 (Failure "Please provide a valid email address")))) /\
  (emailRegex_test padded_email = false /\
   emailRegex_test (toLowerCase_ascii (trim padded_email)) = true) /\
  (forall raw,
     accepted raw ->
     emailRegex_test (email (sanitizedData toLowerCase_ascii raw)) = false ->
     (exists rest,
        fst (contact_handler toLowerCase_ascii sample_env (body_of raw) sample_now
               transport_ok)
        = CallVerify :: rest) /\
     ~ isValidationError
         (contact_handler toLowerCase_ascii sample_env (body_of raw) sample_now
            transport_ok)) /\
  (emailRegex_test long_email = true /\
   forall fullname message,
     emailRegex_test
       (email (sanitizedData toLowerCase_ascii
                 {| fullname := fullname; email := long_email; message := message |}))
     = false).
Proof.
  apply (pattern_is_tried_on_raw_email toLowerCase_ascii sample_env sample_now
           transport_ok).
  - intros s _. reflexivity.
  - exact configured_sample_env.
Defined.

(** * Further properties of the code *)

(** ** The whole table of the contact handler *)

Lemma present_body_of body : present body -> body = body_of (raw_of body).
Proof.
  destruct body as [[f|] [e|] [m|]]; unfold present; simpl;
    intros (Hf & He & Hm); try discriminate; reflexivity.
Qed.

Lemma present_accepted body :
  present body -> emailRegex_test (ToString (req_email body)) = true ->
  accepted (raw_of body).
Proof.
  destruct body as [[[|? ?]|] [[|? ?]|] [[|? ?]|]]; unfold present, accepted; simpl;
    intros (Hf & He & Hm) Hr; try discriminate; repeat split; try discriminate; exact Hr.
Qed.

Lemma accepted_present body :
  body = body_of (raw_of body) -> accepted (raw_of body) -> present body.
Proof.
  destruct body as [[f|] [e|] [m|]]; simpl; intros E; try discriminate E.
  unfold accepted, present.
  cbn [raw_of ToString req_fullname req_email req_message fullname email message].
  intros (Hf & He & Hm & _).
  rewrite !truthy_Some by assumption. auto.
Qed.

Lemma not_present_absent body :
  ~ present body ->
  absent (req_fullname body) \/ absent (req_email body) \/ absent (req_message body).
Proof.
  intros H. rewrite <- !truthy_false. unfold present in H.
  destruct (truthy (req_fullname body)), (truthy (req_email body)),
    (truthy (req_message body)); auto. exfalso. apply H. auto.
Qed.

Lemma not_configured_missing env :
  ~ configured env ->
  exists varName, In varName requiredEnvVars /\ absent (env !! varName).
Proof.
  intros H. rewrite missingVars_nil in H.
  destruct (missingVars env) as [|v l] eqn:E; [congruence|].
  assert (Hin : In v (missingVars env)) by (rewrite E; left; reflexivity).
  unfold missingVars in Hin. apply filter_In in Hin as [Hin Hv].
  exists v. split; [exact Hin|]. apply truthy_false. apply negb_true_iff, Hv.
Qed.

Lemma configured_dec env : configured env \/ ~ configured env.
Proof.
  rewrite missingVars_nil. destruct (missingVars env); [left | right]; congruence.
Qed.

Lemma present_dec body : present body \/ ~ present body.
Proof.
  unfold present.
  destruct (truthy (req_fullname body)), (truthy (req_email body)),
    (truthy (req_message body)); auto; right; intros (? & ? & ?); discriminate.
Qed.

Section Table.

Variable toLowerCase : jsstring -> jsstring.
Variables (env : Env) (body : ReqBody) (now : DateNow) (transporter : Transporter).

(** Every run of the handler is one of six. *)
Lemma contact_handler_table :
  let run := contact_handler toLowerCase env body now transporter in
  let mo := mailOptions env (sanitizedData toLowerCase (raw_of body)) now in
  (~ configured env /\
   run = ([], Normal (json_response 500
            (Failure "Server configuration error. Please contact the administrator."))))
  \/ (configured env /\ ~ present body /\
      run = ([], Normal (json_response 400 (Failure "All fields are required"))))
  \/ (configured env /\ present body /\
      emailRegex_test (ToString (req_email body)) = false /\
      run = ([], Normal (json_response 400
               (Failure "Please provide a valid email address"))))
  \/ (configured env /\ accepted (raw_of body) /\ body = body_of (raw_of body) /\
      ((exists e, verify transporter = Rejected e /\
          run = ([CallVerify], Normal (json_response 500
                   (Failure "Email service is currently unavailable. Please try again later."))))
       \/ (exists u info, verify transporter = Fulfilled u /\
             sendMail transporter mo = Fulfilled info /\
             run = ([CallVerify; CallSendMail mo],
                    Normal (json_response 200
                      (Success "Your message has been sent successfully!"))))
       \/ (exists u e, verify transporter = Fulfilled u /\
             sendMail transporter mo = Rejected e /\
             run = ([CallVerify; CallSendMail mo], snd (on_error e))))).
Proof.
  intros run mo. subst run mo.
  destruct (configured_dec env) as [Hc|Hc].
  2:{ left. split; [exact Hc|]. apply handler_config_error, not_configured_missing, Hc. }
  right. destruct (present_dec body) as [Hp|Hp].
  2:{ left. split; [exact Hc|]. split; [exact Hp|].
      apply handler_missing_fields; [exact Hc|]. apply not_present_absent, Hp. }
  right. destruct (emailRegex_test (ToString (req_email body))) eqn:Hr.
  2:{ left. split; [exact Hc|]. split; [exact Hp|]. split; [reflexivity|].
      rewrite (present_body_of body Hp) at 1.
      destruct body as [[[|? ?]|] [[|? ?]|] [[|? ?]|]]; unfold present in Hp; simpl in Hp;
        destruct Hp as (? & ? & ?); try discriminate.
      apply handler_invalid_email; try discriminate; assumption. }
  right. pose proof (present_accepted body Hp Hr) as Ha.
  pose proof (present_body_of body Hp) as Eb.
  split; [exact Hc|]. split; [exact Ha|]. split; [exact Eb|].
  destruct (verify transporter) as [u|e] eqn:Hv.
  - right.
    destruct (sendMail transporter
                (mailOptions env (sanitizedData toLowerCase (raw_of body)) now))
      as [info|e] eqn:Hs.
    + left. exists u, info. split; [reflexivity|]. split; [reflexivity|].
      rewrite Eb at 1. apply (handler_send_fulfilled _ _ _ _ _ u info); assumption.
    + right. exists u, e. split; [reflexivity|]. split; [reflexivity|].
      rewrite Eb at 1. apply (handler_send_rejected _ _ _ _ _ u e); assumption.
  - left. exists e. split; [reflexivity|].
    rewrite Eb at 1. apply (handler_verify_rejected _ _ _ _ _ e); assumption.
Qed.

End Table.

Lemma on_error_answer e :
  snd (on_error e) =
  Normal (json_response 500 (Failure
    (if decide (code e = Some "EAUTH"%string)
     then "Email authentication failed. Please contact the administrator."
     else if decide (code e = Some "ECONNECTION"%string)
     then "Unable to connect to email service. Please try again later."
     else "Failed to send message. Please try again later."))).
Proof. unfold on_error. repeat case_decide; reflexivity. Qed.

(** X1. On every request the handler makes no transport call at all, or a
    single [verify] that was rejected, or a [verify] that resolved followed
    by exactly one [sendMail] of the message composed from the sanitized
    body: [sendMail] never comes without a successful [verify], and nothing
    is tried twice. *)
Theorem transport_calls_in_order
    (toLowerCase : jsstring -> jsstring) (env : Env) (body : ReqBody)
    (now : DateNow) (transporter : Transporter) :
  let calls := fst (contact_handler toLowerCase env body now transporter) in
  let mo := mailOptions env (sanitizedData toLowerCase (raw_of body)) now in
  calls = []
  \/ (calls = [CallVerify] /\ exists e, verify transporter = Rejected e)
  \/ (calls = [CallVerify; CallSendMail mo] /\
      exists u, verify transporter = Fulfilled u).
Proof.
  intros calls mo. subst calls mo.
  destruct (contact_handler_table toLowerCase env body now transporter)
    as [(_ & E)|[(_ & _ & E)|[(_ & _ & _ & E)|(_ & _ & _ & H)]]];
    try (left; rewrite E; reflexivity).
  destruct H as [(e & Hv & E)|[(u & info & Hv & _ & E)|(u & e & Hv & _ & E)]];
    rewrite E; simpl; eauto.
Qed.

(** X2. The answer is 200 "Your message has been sent successfully!"
    exactly when every required key is configured, the three fields are
    present, the raw e-mail matches the pattern, [verify] resolved and
    [sendMail] of the composed message resolved: success is never reported
    for a message that was not handed over. *)
Theorem success_exactly_when_sent
    (toLowerCase : jsstring -> jsstring) (env : Env) (body : ReqBody)
    (now : DateNow) (transporter : Transporter) :
  snd (contact_handler toLowerCase env body now transporter)
    = Normal (json_response 200 (Success "Your message has been sent successfully!"))
  <->
  configured env /\ present body /\
  emailRegex_test (ToString (req_email body)) = true /\
  (exists u, verify transporter = Fulfilled u) /\
  (exists info,
     sendMail transporter
       (mailOptions env (sanitizedData toLowerCase (raw_of body)) now)
     = Fulfilled info).
Proof.
  destruct (contact_handler_table toLowerCase env body now transporter)
    as [(Hc & E)|[(Hc & Hp & E)|[(Hc & Hp & Hr & E)|(Hc & Ha & Eb & H)]]].
  - rewrite E. split; [discriminate | tauto].
  - rewrite E. split; [discriminate | tauto].
  - rewrite E. split; [discriminate|]. intros (_ & _ & Hr' & _). congruence.
  - pose proof (accepted_present body Eb Ha) as Hp.
    assert (Hr : emailRegex_test (ToString (req_email body)) = true).
    { destruct Ha as (_ & _ & _ & Hr). exact Hr. }
    destruct H as [(e & Hv & E)|[(u & info & Hv & Hs & E)|(u & e & Hv & Hs & E)]];
      rewrite E; simpl.
    + split; [discriminate|]. intros (_ & _ & _ & [u Hu] & _). congruence.
    + split; [|reflexivity]. intros _. eauto 10.
    + rewrite on_error_answer. split; [discriminate|].
      intros (_ & _ & _ & _ & [info Hi]). congruence.
Qed.

(** X3. The handler never lets an exception out, and its answer is always
    one of eight fixed bodies: no text of the submission, of the
    configuration or of a transport error reaches the caller. *)
Theorem answers_are_fixed
    (toLowerCase : jsstring -> jsstring) (env : Env) (body : ReqBody)
    (now : DateNow) (transporter : Transporter) :
  exists response,
    snd (contact_handler toLowerCase env body now transporter) = Normal response /\
    In response contact_answers.
Proof.
  destruct (contact_handler_table toLowerCase env body now transporter)
    as [(_ & E)|[(_ & _ & E)|[(_ & _ & _ & E)|(_ & _ & _ & H)]]].
  - rewrite E. eexists. split; [reflexivity|]. simpl. auto.
  - rewrite E. eexists. split; [reflexivity|]. simpl. auto.
  - rewrite E. eexists. split; [reflexivity|]. simpl. auto.
  - destruct H as [(e & _ & E)|[(u & info & _ & _ & E)|(u & e & _ & _ & E)]]; rewrite E.
    + eexists. split; [reflexivity|]. simpl. auto.
    + eexists. split; [reflexivity|]. simpl. auto 10.
    + simpl. rewrite on_error_answer. eexists. split; [reflexivity|].
      unfold contact_answers. repeat case_decide; simpl; auto 10.
Qed.

(** X4. When [verify] resolves and [sendMail] rejects, the caller gets a
    500 and no success: "Email authentication failed..." for the code
    [EAUTH], "Unable to connect to email service..." for [ECONNECTION] and
    "Failed to send message..." for any other error, after one [verify] and
    one [sendMail]. *)
Theorem send_failure_is_reported
    (toLowerCase : jsstring -> jsstring) (env : Env) (raw : Submission)
    (now : DateNow) (transporter : Transporter) (u : unit) (error : JsError) :
  configured env -> accepted raw ->
  verify transporter = Fulfilled u ->
  sendMail transporter (mailOptions env (sanitizedData toLowerCase raw) now)
    = Rejected error ->
  contact_handler toLowerCase env (body_of raw) now transporter =
  ([CallVerify; CallSendMail (mailOptions env (sanitizedData toLowerCase raw) now)],
   Normal (json_response 500 (Failure
     (if decide (code error = Some "EAUTH"%string)
      then "Email authentication failed. Please contact the administrator."
      else if decide (code error = Some "ECONNECTION"%string)
      then "Unable to connect to email service. Please try again later."
      else "Failed to send message. Please try again later.")))).
Proof.
  intros Hc Ha Hv Hs.
  rewrite (handler_send_rejected _ _ _ _ _ u error) by assumption.
  rewrite on_error_answer. reflexivity.
Qed.

Lemma send_failure_witness :
  contact_handler toLowerCase_ascii sample_env (body_of jane) sample_now
    transport_auth_refused =
  ([CallVerify;
    CallSendMail (mailOptions sample_env (sanitizedData toLowerCase_ascii jane) sample_now)],
   Normal (json_response 500
     (Failure "Email authentication failed. Please contact the administrator."))).
Proof.
  apply (send_failure_is_reported toLowerCase_ascii sample_env jane sample_now
           transport_auth_refused tt {| code := Some "EAUTH"%string |}).
  - exact configured_sample_env.
  - exact accepted_jane.
  - reflexivity.
  - reflexivity.
Defined.

(** ** The pattern and the first name *)

Lemma count_at_class l :
  Forall (fun c => notSpaceAt c = true) l -> count_occ N.eq_dec l 64%N = 0%nat.
Proof.
  induction 1 as [|c l Hc _ IH]; simpl; [reflexivity|].
  destruct (N.eq_dec c 64%N) as [->|_]; [discriminate Hc | exact IH].
Qed.

Lemma class_of_count l :
  Forall (fun c => isWhiteSpace c = false) l -> count_occ N.eq_dec l 64%N = 0%nat ->
  Forall (fun c => notSpaceAt c = true) l.
Proof.
  induction 1 as [|c l Hc _ IH]; simpl; [constructor|].
  destruct (N.eq_dec c 64%N) as [->|Hne]; [discriminate|].
  intros H. constructor; [|auto].
  unfold notSpaceAt. rewrite Hc. simpl.
  apply negb_true_iff, N.eqb_neq, Hne.
Qed.

(** X5. The pattern accepts exactly the strings that hold no white space
    and exactly one [@], with something before the [@] and, after it, a dot
    that has something on both sides. *)
Theorem emailRegex_accepts_exactly (s : jsstring) :
  emailRegex_test s = true <->
  Forall (fun c => isWhiteSpace c = false) s /\
  count_occ N.eq_dec s 64%N = 1%nat /\
  exists local domain,
    s = local ++ 64%N :: domain /\ local <> [] /\
    exists b c, domain = b ++ 46%N :: c /\ b <> [] /\ c <> [].
Proof.
  rewrite emailRegex_spec. split.
  - intros Hs. pose proof (emailShape_no_space s Hs) as Hw.
    destruct Hs as (a & b & c & -> & [Na Ha] & [Nb Hb] & [Nc Hc]).
    split; [exact Hw|]. split.
    + rewrite count_occ_app. simpl. rewrite count_occ_app. simpl.
      rewrite !count_at_class by assumption. reflexivity.
    + exists a, (b ++ 46%N :: c). split; [reflexivity|]. split; [exact Na|].
      exists b, c. auto.
  - intros (Hw & Hcount & a & d & -> & Na & b & c & -> & Nb & Nc).
    rewrite count_occ_app in Hcount. simpl in Hcount.
    rewrite count_occ_app in Hcount. simpl in Hcount.
    apply Forall_app in Hw as [Wa Hw]. apply Forall_cons in Hw as [_ Hw].
    apply Forall_app in Hw as [Wb Hw]. apply Forall_cons in Hw as [_ Wc].
    exists a, b, c. split; [reflexivity|].
    repeat split; try assumption; apply class_of_count; try assumption; lia.
Qed.

Lemma split_space_first_prefix s : exists rest, s = split_space_first s ++ rest.
Proof.
  induction s as [|c s [rest IH]]; simpl.
  - exists []. reflexivity.
  - destruct (N.eqb_spec c 32%N).
    + exists (c :: s). reflexivity.
    + exists rest. simpl. congruence.
Qed.

Lemma split_space_first_no_space s : ~ In 32%N (split_space_first s).
Proof.
  induction s as [|c s IH]; simpl; [tauto|].
  destruct (N.eqb_spec c 32%N); simpl; [tauto|]. intros [E|H]; [congruence | tauto].
Qed.

Lemma split_space_first_nonempty s :
  startsClean s -> s <> [] -> split_space_first s <> [].
Proof.
  destruct s as [|c s]; simpl; [congruence|]. intros Hc _.
  destruct (N.eqb_spec c 32%N) as [->|_]; [discriminate Hc | discriminate].
Qed.

(** X6. The first name put after "Reply to" in the HTML body is the
    beginning of the sanitized name up to its first space: it holds no
    space, and it is not empty unless the sanitized name is (the name was
    trimmed, so it does not begin with a space). *)
Theorem reply_first_name (toLowerCase : jsstring -> jsstring) (raw : Submission) :
  let name := fullname (sanitizedData toLowerCase raw) in
  let first := split_space_first name in
  (exists rest, name = first ++ rest) /\
  ~ In 32%N first /\
  (name <> [] -> first <> []).
Proof.
  intros name first. subst name first. split; [apply split_space_first_prefix|].
  split; [apply split_space_first_no_space|].
  apply split_space_first_nonempty. rewrite sanitizedData_fullname.
  apply firstn_startsClean, trim_startsClean.
Qed.

(** ** The test endpoint, the health check and the CORS check *)

(** X7. What the test endpoint answers depends on the environment only
    through which of the four mail settings are set: two environments that
    agree on that get the same answer, whatever the values are. *)
Theorem test_endpoint_reveals_only_presence
    {B : Type} (method : string) (env1 env2 : Env) (body : option B)
    (toISOString : jsstring) :
  (forall varName, In varName requiredEnvVars ->
     truthy (env1 !! varName) = truthy (env2 !! varName)) ->
  test_handler method env1 body toISOString = test_handler method env2 body toISOString.
Proof.
  intros H. unfold test_handler, test_envVars.
  rewrite (H "EMAIL_USER"%string), (H "EMAIL_PASS"%string),
    (H "SITE_NAME"%string), (H "EMAIL_FROM"%string); simpl; auto 10.
Qed.

Lemma test_endpoint_witness :
  test_handler "GET" sample_env (@None unit) (lit "2026-11-03T10:00:00.000Z")
  = test_handler "GET" other_secrets_env (@None unit) (lit "2026-11-03T10:00:00.000Z").
Proof.
  apply (test_endpoint_reveals_only_presence "GET" sample_env other_secrets_env
           (@None unit) (lit "2026-11-03T10:00:00.000Z")).
  intros varName Hin. simpl in Hin.
  destruct Hin as [<-|[<-|[<-|[<-|[]]]]]; vm_compute; reflexivity.
Defined.

(** X8. The flags of the test endpoint tell what the contact endpoint will
    do: a flag is [false] exactly for a key that the contact handler counts
    as missing, and the four flags are all [true] exactly when the contact
    handler gets past its configuration check. *)
Theorem test_flags_match_missingVars (env : Env) :
  (EMAIL_USER (test_envVars env) = false <-> In "EMAIL_USER"%string (missingVars env)) /\
  (EMAIL_PASS (test_envVars env) = false <-> In "EMAIL_PASS"%string (missingVars env)) /\
  (SITE_NAME (test_envVars env) = false <-> In "SITE_NAME"%string (missingVars env)) /\
  (EMAIL_FROM (test_envVars env) = false <-> In "EMAIL_FROM"%string (missingVars env)) /\
  (EMAIL_USER (test_envVars env) && EMAIL_PASS (test_envVars env)
   && SITE_NAME (test_envVars env) && EMAIL_FROM (test_envVars env) = true
   <-> missingVars env = []).
Proof.
  unfold missingVars, test_envVars. simpl.
  assert (F : forall v, In v requiredEnvVars ->
            (truthy (env !! v) = false <->
             In v (List.filter (fun varName => negb (truthy (env !! varName)))
                     requiredEnvVars))).
  { intros v Hin. rewrite filter_In, negb_true_iff. tauto. }
  repeat split; try (apply F; simpl; tauto); try (apply F; simpl; tauto).
  - intros H. apply andb_true_iff in H as [H H4]. apply andb_true_iff in H as [H H3].
    apply andb_true_iff in H as [H1 H2]. rewrite H1, H2, H3, H4. reflexivity.
  - intros H.
    destruct (truthy (env !! "EMAIL_USER"%string)); [|discriminate H].
    destruct (truthy (env !! "EMAIL_PASS"%string)); [|discriminate H].
    destruct (truthy (env !! "SITE_NAME"%string)); [|discriminate H].
    destruct (truthy (env !! "EMAIL_FROM"%string)); [|discriminate H].
    reflexivity.
Qed.

Lemma configured_emailConfigured env :
  configured env ->
  truthy (js_and (env !! "EMAIL_USER"%string) (env !! "EMAIL_PASS"%string)) = true.
Proof.
  unfold configured, requiredEnvVars. intros H.
  apply Forall_cons in H as [H1 H]. apply Forall_cons in H as [H2 _].
  unfold js_and. rewrite H1. exact H2.
Qed.

(** X9. [emailConfigured: true] in the health check follows from a
    complete contact configuration but does not promise one: it looks at
    [EMAIL_USER] and [EMAIL_PASS] only, so with [SITE_NAME] unset the
    health check says [true] while every submission is answered with the
    configuration error. *)
Theorem health_flag_is_weaker {U : Type} (toISOString : jsstring) (process_uptime : U) :
  (forall env, configured env ->
     emailConfigured (snd (api_health env toISOString process_uptime)) = true) /\
  (exists env,
     emailConfigured (snd (api_health env toISOString process_uptime)) = true /\
     forall toLowerCase body now transporter,
       contact_handler toLowerCase env body now transporter =
       ([], Normal (json_response 500
          (Failure "Server configuration error. Please contact the administrator.")))).
Proof.
  split.
  - intros env H. simpl. apply configured_emailConfigured, H.
  - exists (delete "SITE_NAME"%string sample_env). split; [reflexivity|].
    intros toLowerCase body now transporter. apply handler_config_error.
    exists "SITE_NAME"%string. split; [simpl; auto|]. left. reflexivity.
Qed.

Lemma indexOf_from_spec l x : forall i, (0 <= i)%Z ->
  ((0 <= indexOf_from i l x)%Z /\ In x l) \/
  (indexOf_from i l x = (-1)%Z /\ ~ In x l).
Proof.
  induction l as [|y l IH]; intros i Hi; simpl.
  - right. tauto.
  - case_decide as E.
    + left. auto.
    + destruct (IH (i + 1)%Z ltac:(lia)) as [[H Hin]|[H Hn]]; [left; auto|].
      right. split; [exact H|]. intros [E'|Hin]; [congruence | tauto].
Qed.

Lemma indexOf_found l x : (indexOf l x =? -1)%Z = false <-> In x l.
Proof.
  unfold indexOf. rewrite Z.eqb_neq.
  destruct (indexOf_from_spec l x 0%Z ltac:(lia)) as [[H Hin]|[H Hn]].
  - split; [auto | lia].
  - split; [congruence | tauto].
Qed.

(** X10. The CORS check lets a request through exactly when it has no
    [Origin] header (or an empty one), or its origin is, character for
    character, one of the six fixed origins or the non-empty
    [FRONTEND_URL]; every other origin gets the error "Not allowed by
    CORS". *)
Theorem cors_origin_allows_exactly (env : Env) (origin : option jsstring) :
  (cors_origin env origin = CorsAllowed <->
   absent origin \/
   exists o, origin = Some o /\
     (In o fixedOrigins \/ (o <> [] /\ env !! "FRONTEND_URL"%string = Some o))) /\
  (cors_origin env origin <> CorsAllowed ->
   cors_origin env origin = CorsError "Not allowed by CORS").
Proof.
  unfold cors_origin. destruct (truthy origin) eqn:Ht; simpl.
  2:{ apply truthy_false in Ht. split; [tauto | congruence]. }
  destruct origin as [[|c o']|]; try discriminate Ht. set (o := c :: o').
  cbn [ToString].
  assert (A : In o (allowedOrigins env) <->
              In o fixedOrigins \/ (o <> [] /\ env !! "FRONTEND_URL"%string = Some o)).
  { unfold allowedOrigins. destruct (env !! "FRONTEND_URL"%string) as [[|d u]|] eqn:E; simpl truthy; cbv iota.
    - split; [tauto|]. intros [H|[_ H]]; [exact H | discriminate H].
    - rewrite in_app_iff. cbn [ToString In]. split.
      + intros [H|[H|[]]]; [tauto|]. right. split; [discriminate | congruence].
      + intros [H|[_ H]]; [tauto|]. right. left. congruence.
    - split; [tauto|]. intros [H|[_ H]]; [exact H | discriminate H]. }
  destruct (indexOf (allowedOrigins env) o =? -1)%Z eqn:Ei; simpl.
  - split; [|reflexivity]. split; [discriminate|].
    intros [[H|H]|(o2 & E & H)]; try discriminate H.
    injection E as <-. apply A, indexOf_found in H. congruence.
  - split; [|congruence]. split; [|reflexivity]. intros _. right.
    exists o. split; [reflexivity|]. apply A, indexOf_found, Ei.
Qed.

(** ** The [service: 'gmail'] revision *)

Lemma length_zero_nil {A} (l : list A) : (0 <? length l)%nat = false -> l = [].
Proof. destruct l; [reflexivity | discriminate]. Qed.

(** X11. The two revisions of the handler give the same answer, without
    any transport call, to every request that does not pass the
    configuration check, the presence check and the e-mail pattern,
    whatever [nodemailer] offers. *)
Theorem service_revision_agrees_before_transport
    (toLowerCase : jsstring -> jsstring)
    (createTransporter : option (ServiceOptions -> Transporter))
    (env : Env) (body : ReqBody) (now : DateNow) (transporter : Transporter) :
  ~ (configured env /\ present body /\
     emailRegex_test (ToString (req_email body)) = true) ->
  contact_handler_service toLowerCase createTransporter env body now
  = contact_handler toLowerCase env body now transporter
  /\ fst (contact_handler_service toLowerCase createTransporter env body now) = [].
Proof.
  intros H. unfold contact_handler_service, contact_handler.
  destruct (0 <? length (missingVars env))%nat eqn:E1; [split; reflexivity|].
  destruct (negb (truthy (req_fullname body)) || negb (truthy (req_email body))
            || negb (truthy (req_message body))) eqn:E2; [split; reflexivity|].
  destruct (negb (emailRegex_test (ToString (req_email body)))) eqn:E3;
    [split; reflexivity|].
  exfalso. apply H. split; [|split].
  - apply missingVars_nil, length_zero_nil, E1.
  - apply orb_false_iff in E2 as [E2 Em]. apply orb_false_iff in E2 as [Ef Ee].
    unfold present. rewrite !negb_false_iff in *. auto.
  - apply negb_false_iff, E3.
Qed.

Lemma service_revision_agrees_witness :
  contact_handler_service toLowerCase_ascii None sample_env
    (body_of {| fullname := lit "Jane Doe"; email := lit "not-an-email";
                message := lit "Hi there" |}) sample_now
  = contact_handler toLowerCase_ascii sample_env
      (body_of {| fullname := lit "Jane Doe"; email := lit "not-an-email";
                  message := lit "Hi there" |}) sample_now transport_ok
  /\ fst (contact_handler_service toLowerCase_ascii None sample_env
            (body_of {| fullname := lit "Jane Doe"; email := lit "not-an-email";
                        message := lit "Hi there" |}) sample_now) = [].
Proof.
  apply (service_revision_agrees_before_transport toLowerCase_ascii None sample_env
           (body_of {| fullname := lit "Jane Doe"; email := lit "not-an-email";
                       message := lit "Hi there" |}) sample_now transport_ok).
  intros (_ & _ & H). vm_compute in H. discriminate H.
Defined.

(** X12. For an accepted submission the [service: 'gmail'] revision
    depends on [nodemailer.createTransporter]: when the module has no such
    member the call throws, the answer is 500 "Failed to send message.
    Please try again later." and no transport is ever contacted; when it
    has one, the run is that of the explicit-SMTP handler on the
    transporter made from [{ service: 'gmail', auth: { user, pass } }]. *)
Theorem service_revision_needs_createTransporter
    (toLowerCase : jsstring -> jsstring) (env : Env) (raw : Submission)
    (now : DateNow) :
  configured env -> accepted raw ->
  contact_handler_service toLowerCase None env (body_of raw) now
  = ([], Normal (json_response 500
       (Failure "Failed to send message. Please try again later.")))
  /\ forall make,
       contact_handler_service toLowerCase (Some make) env (body_of raw) now
       = contact_handler toLowerCase env (body_of raw) now
           (make {| service := lit "gmail";
                    auth_user := env !! "EMAIL_USER"%string;
                    auth_pass := env !! "EMAIL_PASS"%string |}).
Proof.
  intros Hc Ha.
  assert (S : forall member,
    contact_handler_service toLowerCase member env (body_of raw) now =
    try_catch
      (let* transporter :=
         call_member member
           {| service := lit "gmail";
              auth_user := env !! "EMAIL_USER"%string;
              auth_pass := env !! "EMAIL_PASS"%string |} in
       let* unavailable := verify_transporter transporter in
       match unavailable with
       | Some response => ret response
       | None =>
           let mo := mailOptions env (sanitizedData toLowerCase raw) now in
           let* info := await (CallSendMail mo) (sendMail transporter mo) in
           ret (json_response 200 (Success "Your message has been sent successfully!"))
       end)
      on_error).
  { intros member. destruct Ha as (Hf & He & Hm & Hr).
    unfold contact_handler_service.
    apply missingVars_nil in Hc. rewrite Hc.
    cbn [length Nat.ltb Nat.leb body_of req_fullname req_email req_message
         ToString receiver].
    rewrite !truthy_Some by assumption. rewrite Hr.
    cbn [negb orb]. rewrite !bind_ret_l. destruct raw. reflexivity. }
  split.
  - rewrite S. reflexivity.
  - intros make. rewrite S, handler_accepted by assumption.
    unfold call_member. rewrite bind_ret_l. reflexivity.
Qed.

Lemma service_revision_witness :
  contact_handler_service toLowerCase_ascii None sample_env (body_of jane) sample_now
  = ([], Normal (json_response 500
       (Failure "Failed to send message. Please try again later.")))
  /\ forall make,
       contact_handler_service toLowerCase_ascii (Some make) sample_env (body_of jane)
         sample_now
       = contact_handler toLowerCase_ascii sample_env (body_of jane) sample_now
           (make {| service := lit "gmail";
                    auth_user := sample_env !! "EMAIL_USER"%string;
                    auth_pass := sample_env !! "EMAIL_PASS"%string |}).
Proof.
  apply (service_revision_needs_createTransporter toLowerCase_ascii sample_env jane
           sample_now).
  - exact configured_sample_env.
  - exact accepted_jane.
Defined.

(** ** The size of the composed message *)

Lemma split_space_first_length s : (length (split_space_first s) <= length s)%nat.
Proof.
  destruct (split_space_first_prefix s) as [rest E].
  rewrite E at 2. rewrite length_app. lia.
Qed.

(** X13. The composed message is bounded by the caps of the sanitized
    fields: the subject has at most 114 units, the text body at most 1278
    plus the length of the formatted date, and the HTML body at most 7557
    plus three times the length of the site name and the length of the
    formatted date, whatever was submitted. *)
Theorem composed_mail_is_bounded
    (toLowerCase : jsstring -> jsstring) (env : Env) (raw : Submission)
    (now : DateNow) :
  let mo := mailOptions env (sanitizedData toLowerCase raw) now in
  (Z.of_nat (length (subject mo)) <= 114)%Z /\
  (Z.of_nat (length (text mo)) <= 1278 + Z.of_nat (length (toLocaleString now)))%Z /\
  (Z.of_nat (length (html mo))
   <= 7557 + 3 * Z.of_nat (length (ToString (env !! "SITE_NAME"%string)))
      + Z.of_nat (length (toLocaleDateString now)))%Z.
Proof.
  intros mo. subst mo.
  destruct (sanitizedData_caps toLowerCase raw) as (Cf & Ce & Cm).
  pose proof (split_space_first_length (fullname (sanitizedData toLowerCase raw))) as Cs.
  set (sd := sanitizedData toLowerCase raw) in *.
  unfold mailOptions. cbn [subject text html].
  assert (H0 : length html_0 = 1185%nat) by (vm_compute; reflexivity).
  assert (H1 : length html_1 = 841%nat) by (vm_compute; reflexivity).
  assert (H2 : length html_2 = 884%nat) by (vm_compute; reflexivity).
  assert (H3 : length html_3 = 196%nat) by (vm_compute; reflexivity).
  assert (H4 : length html_4 = 1310%nat) by (vm_compute; reflexivity).
  assert (H5 : length html_5 = 207%nat) by (vm_compute; reflexivity).
  assert (H6 : length html_6 = 29%nat) by (vm_compute; reflexivity).
  assert (H7 : length html_7 = 412%nat) by (vm_compute; reflexivity).
  assert (H8 : length html_8 = 637%nat) by (vm_compute; reflexivity).
  assert (H9 : length html_9 = 225%nat) by (vm_compute; reflexivity).
  assert (H10 : length html_10 = 131%nat) by (vm_compute; reflexivity).
  assert (T0 : length text_0 = 36%nat) by (vm_compute; reflexivity).
  assert (T1 : length text_1 = 8%nat) by (vm_compute; reflexivity).
  assert (T2 : length text_2 = 11%nat) by (vm_compute; reflexivity).
  assert (T3 : length text_3 = 16%nat) by (vm_compute; reflexivity).
  assert (T4 : length text_4 = 7%nat) by (vm_compute; reflexivity).
  assert (L : length (lit "New Contact - ") = 14%nat) by reflexivity.
  rewrite !length_app.
  rewrite H0, H1, H2, H3, H4, H5, H6, H7, H8, H9, H10, T0, T1, T2, T3, T4, L.
  lia.
Qed.
